(** * trenitalia-open-api: the fetch-and-normalise functions of src/functions.ts

    A shallow embedding of the seven exported functions of [functions.ts]
    together with the built-in JavaScript operations they rely on
    ([String.prototype.split], [trim], [Number], template literals, the
    insertion-ordered [Map]), followed by the properties of the train
    aggregation pipeline.

    Conventions of the embedding:
    - a JavaScript string is a [string]: its sequence of code units, restricted
      to code units below 256;
    - an integer-valued JavaScript number is a [Z]; results of [Number(...)]
      live in [JS.jsnum], which tracks exact integers and NaN;
    - [undefined] is [None];
    - a [try { ... } catch (err) { ... }] body is a computation in the
      exception monad [JS.exc], the handler is a [match] on its outcome;
    - the network is a [gateway]: one outcome of [axios.get] per endpoint. *)

From Stdlib Require Import ZArith List Bool Ascii String Lia QArith.
From Stdlib Require Import DecimalString DecimalPos DecimalZ.
Import ListNotations.

Local Open Scope string_scope.
Local Open Scope Z_scope.

(* ================================================================== *)
(** ** JavaScript built-ins used by the source *)
(* ================================================================== *)

Module JS.

(** *** Thrown values and the exception monad *)

(** What a [catch (err)] clause of the source can receive: an [Error] object
    (an [AxiosError] rejected by [axios.get], or a [TypeError] raised by a
    property access on [undefined]), or a string thrown by a [throw `...`]
    statement. *)
Inductive error : Type :=
| AxiosError (message : string)
| TypeError (message : string)
| ThrownString (s : string).

Inductive exc (A : Type) : Type :=
| Ok (a : A)
| Throw (e : error).
Arguments Ok {A} a.
Arguments Throw {A} e.

Definition bind {A B : Type} (m : exc A) (k : A -> exc B) : exc B :=
  match m with
  | Ok a => k a
  | Throw e => Throw e
  end.

Notation "x <- m ;; k" := (bind m (fun x => k))
  (at level 61, m at next level, right associativity).

(** [Array.prototype.map] with a callback that may throw: the callback runs
    on the elements in index order and the first exception aborts the map.
    The callback receives the index, as [(st, index) => ...] does. *)
Fixpoint mapi_exc {A B : Type} (f : A -> nat -> exc B) (i : nat) (l : list A)
  : exc (list B) :=
  match l with
  | [] => Ok []
  | a :: l' =>
      b <- f a i ;;
      bs <- mapi_exc f (S i) l' ;;
      Ok (b :: bs)
  end.

(** *** Strings *)

Fixpoint drop (n : nat) (s : string) : string :=
  match n, s with
  | O, _ => s
  | S _, EmptyString => EmptyString
  | S n', String _ s' => drop n' s'
  end.

(** [split_go sep skip s] scans [s] from the left and returns the piece under
    construction and the pieces after it.  [skip] counts the code units of a
    separator occurrence that are still to be stepped over. *)
Fixpoint split_go (sep : string) (skip : nat) (s : string)
  : string * list string :=
  match s with
  | EmptyString => (EmptyString, [])
  | String c s' =>
      match skip with
      | S k => split_go sep k s'
      | O =>
          if prefix sep s
          then let (p, ps) := split_go sep (String.length sep - 1) s' in
               (EmptyString, p :: ps)
          else let (p, ps) := split_go sep O s' in
               (String c p, ps)
      end
  end.

Fixpoint chars (s : string) : list string :=
  match s with
  | EmptyString => []
  | String c s' => String c EmptyString :: chars s'
  end.

(** [s.split(sep)] for a string separator: the pieces between the successive
    leftmost occurrences of [sep]; with the empty separator, the code units. *)
Definition split (sep s : string) : list string :=
  match sep with
  | EmptyString => chars s
  | _ => let (p, ps) := split_go sep O s in p :: ps
  end.

(** WhiteSpace and LineTerminator code units below 256: TAB, LF, VT, FF, CR,
    SP and NBSP. *)
Definition is_whitespace (c : ascii) : bool :=
  match nat_of_ascii c with
  | 9%nat | 10%nat | 11%nat | 12%nat | 13%nat | 32%nat | 160%nat => true
  | _ => false
  end.

Fixpoint trimStart (s : string) : string :=
  match s with
  | EmptyString => EmptyString
  | String c s' => if is_whitespace c then trimStart s' else s
  end.

Fixpoint trimEnd (s : string) : string :=
  match s with
  | EmptyString => EmptyString
  | String c s' =>
      match trimEnd s' with
      | EmptyString => if is_whitespace c then EmptyString else String c EmptyString
      | r => String c r
      end
  end.

(** [s.trim()] *)
Definition trim (s : string) : string := trimEnd (trimStart s).

(** *** Numbers *)

(** The value of [Number(...)] and of the arithmetic on it.  [Num z] is the
    integer [z], exactly; [NaN] is NaN; [Untracked] stands for a double this
    embedding does not compute: a literal with a fraction, an exponent, a
    radix prefix or [Infinity], an integer beyond 2^53 (where doubles round),
    or the NaN of a string that is no numeric literal at all. *)
Inductive jsnum : Type :=
| Num (z : Z)
| NaN
| Untracked.

Definition max_safe : Z := 2 ^ 53.

Definition exact (z : Z) : jsnum :=
  if Z.abs z <=? max_safe then Num z else Untracked.

Definition digit_of (c : ascii) : option Z :=
  let n := nat_of_ascii c in
  if ((48 <=? n) && (n <=? 57))%nat then Some (Z.of_nat n - 48) else None.

Fixpoint digits_value (acc : Z) (s : string) : option Z :=
  match s with
  | EmptyString => Some acc
  | String c s' =>
      match digit_of c with
      | Some d => digits_value (10 * acc + d) s'
      | None => None
      end
  end.

(** A non-empty run of decimal digits. *)
Definition decimal_digits (s : string) : option Z :=
  match s with
  | EmptyString => None
  | _ => digits_value 0 s
  end.

(** [Number(s)] on a string: surrounding white space is ignored, the empty
    string is 0, an optionally signed run of decimal digits is its value. *)
Definition Number_of_string (s : string) : jsnum :=
  match trim s with
  | EmptyString => Num 0
  | String "+" d =>
      match decimal_digits d with Some v => exact v | None => Untracked end
  | String "-" d =>
      match decimal_digits d with Some v => exact (- v) | None => Untracked end
  | d =>
      match decimal_digits d with Some v => exact v | None => Untracked end
  end.

(** [Number(x)] where [x] is a string or [undefined]. *)
Definition Number (x : option string) : jsnum :=
  match x with
  | Some s => Number_of_string s
  | None => NaN
  end.

Definition mul (a b : jsnum) : jsnum :=
  match a, b with
  | NaN, _ | _, NaN => NaN
  | Num x, Num y => exact (x * y)
  | _, _ => Untracked
  end.

Definition add (a b : jsnum) : jsnum :=
  match a, b with
  | NaN, _ | _, NaN => NaN
  | Num x, Num y => exact (x + y)
  | _, _ => Untracked
  end.

(** An integer inside a template literal: its decimal digits, with a leading
    minus sign when negative. *)
Definition string_of_number (z : Z) : string :=
  NilEmpty.string_of_int (Z.to_int z).

(** *** The insertion-ordered [Map] with string keys *)

Definition Map (V : Type) : Type := list (string * V).

(** [m.set(k, v)]: an existing key keeps its position and takes the new
    value; a new key goes to the end. *)
Fixpoint set {V : Type} (k : string) (v : V) (m : Map V) : Map V :=
  match m with
  | [] => [(k, v)]
  | (k', v') :: m' =>
      if String.eqb k' k then (k, v) :: m' else (k', v') :: set k v m'
  end.

(** [new Map(entries)] *)
Definition Map_of {V : Type} (entries : list (string * V)) : Map V :=
  fold_left (fun m kv => set (fst kv) (snd kv) m) entries [].

(** [Array.from(m.values())] *)
Definition values {V : Type} (m : Map V) : list V := List.map snd m.

End JS.

(* ================================================================== *)
(** ** The upstream service *)
(* ================================================================== *)

(** The response object of axios, with the three fields the source reads. *)
Record response (D : Type) : Type := {
  status : Z;
  statusText : string;
  data : D
}.
Arguments status {D} r.
Arguments statusText {D} r.
Arguments data {D} r.

(** The outcome of the promise [axios.get(url)]: it rejects (transport
    failure, or a status that axios itself refuses), or it resolves to a
    response. *)
Inductive axios_result (D : Type) : Type :=
| Rejected (err : JS.error)
| Resolved (res : response D).
Arguments Rejected {D} err.
Arguments Resolved {D} res.

(** [await p] inside a [try] block. *)
Definition await {D : Type} (p : axios_result D) : JS.exc (response D) :=
  match p with
  | Rejected err => JS.Throw err
  | Resolved res => JS.Ok res
  end.

(** The request did not come back as a usable answer: a transport failure or
    a response whose status is not 200. *)
Definition failed {D : Type} (p : axios_result D) : Prop :=
  match p with
  | Rejected _ => True
  | Resolved res => status res <> 200
  end.

(** Records of the upstream JSON, with the fields the source reads. *)

Record raw_localita : Type := { nomeLungo : string }.

Record raw_station : Type := {
  codStazione : string;
  localita : raw_localita;
  nomeCitta : string;
  lat : Q;
  lon : Q
}.

Record raw_segment : Type := {
  nodoA : string;
  nodoB : string;
  trattaAB : Z;
  trattaBA : Z;
  latitudineA : Q;
  longitudineA : Q;
  latitudineB : Q;
  longitudineB : Q;
  occupata : bool
}.

Record raw_train : Type := {
  arrivato : bool;
  nonPartito : bool;
  circolante : bool;
  inStazione : bool;
  dataPartenzaTreno : Z;
  tratta : Z;
  regione : Z;
  categoria : string;
  compNumeroTreno : string;
  numeroTreno : Z;
  haCambiNumero : bool;
  origine : string;
  codOrigine : string;
  destinazione : string;
  codDestinazione : string;
  compDurata : string;
  ritardo : Z;
  ultimoRilev : option Z
}.

(** One element of a [dettagliTratta] answer. *)
Record raw_tratta : Type := { treni : list raw_train }.

Record raw_fermata_canvas : Type := {
  c_arrivo_teorico : option Z;
  c_arrivoReale : option Z;
  c_partenza_teorica : option Z;
  c_partenzaReale : option Z;
  c_ritardoArrivo : Z;
  c_ritardoPartenza : Z;
  c_binarioProgrammatoPartenzaDescrizione : option string;
  c_binarioProgrammatoArrivoDescrizione : option string;
  c_binarioEffettivoPartenzaDescrizione : option string;
  c_binarioEffettivoArrivoDescrizione : option string
}.

(** One element of a [tratteCanvas] answer. *)
Record raw_canvas : Type := {
  c_id : string;
  c_stazione : string;
  c_first : bool;
  c_last : bool;
  stazioneCorrente : bool;
  fermata : raw_fermata_canvas
}.

(** One element of [fermate] in an [andamentoTreno] answer. *)
Record raw_fermata : Type := {
  f_stazione : string;
  f_id : string;
  arrivoReale : option Z;
  partenzaReale : option Z;
  ritardoArrivo : Z;
  ritardoPartenza : Z;
  tipoFermata : string;
  actualFermataType : Z;
  arrivo_teorico : option Z;
  partenza_teorica : option Z;
  binarioProgrammatoPartenzaDescrizione : option string;
  binarioProgrammatoArrivoDescrizione : option string;
  binarioEffettivoPartenzaDescrizione : option string;
  binarioEffettivoArrivoDescrizione : option string
}.

Record raw_andamento : Type := {
  tipoTreno : string;
  fermateSoppresse : list string;
  oraUltimoRilevamento : option Z;
  stazioneUltimoRilevamento : string;
  idOrigine : string;
  idDestinazione : string;
  a_origine : string;
  a_destinazione : string;
  a_arrivato : bool;
  fermate : list raw_fermata
}.

(** The network as seen by one call of an exported function: what
    [axios.get] yields for each endpoint.  Path parameters are the strings
    (or integers) the source interpolates into the URL; the cache-busting
    timestamp is not a parameter of the answer. *)
Record gateway : Type := {
  elencoStazioni : axios_result (list raw_station);
  elencoTratte : axios_result (list raw_segment);
  dettagliTratta : Z -> Z -> axios_result (list raw_tratta);
  regioneStazione : string -> axios_result Z;
  cercaNumeroTrenoTrenoAutocomplete : string -> axios_result string;
  tratteCanvas : string -> string -> axios_result (list raw_canvas);
  andamentoTreno : string -> string -> axios_result raw_andamento
}.

(* ================================================================== *)
(** ** The types of types.ts and the values the functions build *)
(* ================================================================== *)

Record mapStation : Type := {
  st_stationId : string;
  st_name : string;
  st_city : string;
  st_location : Q * Q
}.

Record mapSegment : Type := {
  stationIdA : string;
  stationIdB : string;
  segmentIdAB : Z;
  segmentIdBA : Z;
  locationA : Q * Q;
  locationB : Q * Q;
  busy : bool
}.

(** The object [newData] built by [getAllTrains]. *)
Record Train : Type := {
  departed : bool;
  arrived : bool;
  travelling : bool;
  inStation : bool;
  departureTime : Z;
  segmentId : Z;
  regionId : Z;
  trainCategory : option string;
  trainNumber : Z;
  changingNumber : bool;
  stationA : string;
  t_stationIdA : string;
  stationB : string;
  t_stationIdB : string;
  travelDuration : JS.jsnum;
  delay : Z;
  latestDetection : option Z
}.

(** The object [newData] built by [getTrainAutocomplete]. *)
Record TrainAutocompleteMatch : Type := {
  m_trainNumber : option string;
  m_stationA : option string;
  m_stationIdA : option string
}.

Record trainStopInfo : Type := {
  stationId : string;
  name : string;
  isFirstStop : bool;
  isLastStop : bool;
  isCurrentStop : bool;
  expectedArrival : option Z;
  actualArrival : option Z;
  expectedDeparture : option Z;
  actualDeparture : option Z;
  delayAtArrival : option Z;
  delayAtDeparture : option Z;
  expectedPlatform : option string;
  actualPlatform : option string
}.

(** The object returned by [getTrainInfo] on success. *)
Record trainInfo : Type := {
  trainType : string;
  suppressedStops : list string;
  lastDetection : option Z;
  lastDetectionStationName : option string;
  i_stationIdA : string;
  i_stationIdB : string;
  nameA : string;
  nameB : string;
  hasArrived : bool;
  stops : list trainStopInfo
}.

(** What a function declared [Promise<any>] hands to its caller: the value of
    its [try] block, or the caught [err] itself. *)
Inductive any_result (A : Type) : Type :=
| Value (a : A)
| Err (e : JS.error).
Arguments Value {A} a.
Arguments Err {A} e.

(* ================================================================== *)
(** ** functions.ts *)
(* ================================================================== *)

Import JS.

(** [`Status Code: ${response.status} - ${response.statusText}`] *)
Definition status_message {D : Type} (res : response D) : string :=
  "Status Code: " ++ string_of_number (status res) ++ " - " ++ statusText res.

(** Reading a property of [x] where [x] may be [undefined]. *)
Definition read_of {A : Type} (x : option A) (prop : string) : exc A :=
  match x with
  | Some a => Ok a
  | None =>
      Throw (TypeError ("Cannot read properties of undefined (reading '"
                          ++ prop ++ "')"))
  end.

(** [l[i]] for a number [i]. *)
Definition at_index {A : Type} (l : list A) (i : Z) : option A :=
  if i <? 0 then None else nth_error l (Z.to_nat i).

(** Truthiness of a number or [null]/[undefined]. *)
Definition truthy (x : option Z) : bool :=
  match x with
  | Some z => negb (z =? 0)
  | None => false
  end.

(** *** getAllStations *)

Definition getAllStations_try (gw : gateway) : exc (list mapStation) :=
  response <- await (elencoStazioni gw) ;;
  if status response =? 200 then
    Ok (map (fun el =>
               {| st_stationId := codStazione el;
                  st_name := nomeLungo (localita el);
                  st_city := nomeCitta el;
                  st_location := (lat el, lon el) |})
            (data response))
  else Throw (ThrownString (status_message response)).

Definition getAllStations (gw : gateway) : list mapStation :=
  match getAllStations_try gw with
  | Ok stations => stations
  | Throw _ => []
  end.

(** *** getAllSegments *)

(** [`${el.trattaAB}-${el.trattaBA}`] *)
Definition segment_key (el : raw_segment) : string :=
  string_of_number (trattaAB el) ++ "-" ++ string_of_number (trattaBA el).

(** [Array.from(new Map(trainLines.map(el => [key, el])).values())] *)
Definition unique_lines (trainLines : list raw_segment) : list raw_segment :=
  values (Map_of (map (fun el => (segment_key el, el)) trainLines)).

Definition to_mapSegment (el : raw_segment) : mapSegment :=
  {| stationIdA := nodoA el;
     stationIdB := nodoB el;
     segmentIdAB := trattaAB el;
     segmentIdBA := trattaBA el;
     locationA := (latitudineA el, longitudineA el);
     locationB := (latitudineB el, longitudineB el);
     busy := occupata el |}.

Definition getAllSegments_try (gw : gateway) (unique busy : bool)
  : exc (list mapSegment) :=
  response <- await (elencoTratte gw) ;;
  if status response =? 200 then
    let trainLines := data response in
    let trainLines := if busy then filter occupata trainLines else trainLines in
    let trainLines := if unique then unique_lines trainLines else trainLines in
    Ok (map to_mapSegment trainLines)
  else Throw (ThrownString (status_message response)).

Definition getAllSegments (gw : gateway) (unique busy : bool) : list mapSegment :=
  match getAllSegments_try gw unique busy with
  | Ok segments => segments
  | Throw _ => []
  end.

(** *** getAllTrains *)

(** [segments.map(async el => await axios.get(...dettagliTratta...))]: one
    request per segment handed over by [getAllSegments(true)]. *)
Definition infoTratte (gw : gateway) (segments : list mapSegment)
  : list (axios_result (list raw_tratta)) :=
  map (fun el => dettagliTratta gw (segmentIdAB el) (segmentIdBA el)) segments.

(** [await Promise.all(promises)]: the responses in order when every promise
    resolves, a rejection otherwise.  The rejection reported here is the one
    of lowest index; at run time it is the earliest in time. *)
Fixpoint Promise_all {D : Type} (promises : list (axios_result D))
  : exc (list (response D)) :=
  match promises with
  | [] => Ok []
  | p :: ps =>
      match p, Promise_all ps with
      | Rejected err, _ => Throw err
      | Resolved _, Throw err => Throw err
      | Resolved res, Ok rs => Ok (res :: rs)
      end
  end.

(** The predicate of [data.filter]: [!el.arrivato || !el.nonPartito]. *)
Definition keep (el : raw_train) : bool :=
  negb (arrivato el) || negb (nonPartito el).

(** [const [hours, minutes] = el.compDurata.split(':')] followed by
    [(Number(hours) * 60) + Number(minutes)]. *)
Definition durataMin (el : raw_train) : jsnum :=
  let parts := split ":" (compDurata el) in
  let hours := nth_error parts 0 in
  let minutes := nth_error parts 1 in
  add (mul (Number hours) (Num 60)) (Number minutes).

(** The callback of the second [map]: the object [newData]. *)
Definition newData (el : raw_train) : Train :=
  {| departed := negb (nonPartito el);
     arrived := arrivato el;
     travelling := circolante el;
     inStation := inStazione el;
     departureTime := dataPartenzaTreno el;
     segmentId := tratta el;
     regionId := regione el;
     trainCategory :=
       if negb (String.eqb (categoria el) "")
       then Some (categoria el)
       else nth_error (split " " (trim (compNumeroTreno el))) 0;
     trainNumber := numeroTreno el;
     changingNumber := haCambiNumero el;
     stationA := origine el;
     t_stationIdA := codOrigine el;
     stationB := destinazione el;
     t_stationIdB := codDestinazione el;
     travelDuration := durataMin el;
     delay := ritardo el;
     latestDetection := ultimoRilev el |}.

(** The [then] callback: flatten, filter, normalise. *)
Definition allTrains_of (responses : list (response (list raw_tratta)))
  : list Train :=
  let data :=
    List.concat (map (fun el => List.concat (map treni (data el))) responses) in
  map newData (filter keep data).

(** [`${t.trainNumber}-${t.regionId}`] *)
Definition train_key (t : Train) : string :=
  string_of_number (trainNumber t) ++ "-" ++ string_of_number (regionId t).

(** [Array.from(new Map(allTrains.map(t => [key, t])).values())] *)
Definition noDuplicates (allTrains : list Train) : list Train :=
  values (Map_of (map (fun t => (train_key t, t)) allTrains)).

Definition getAllTrains_try (gw : gateway) : exc (list Train) :=
  let segments := getAllSegments gw true false in
  responses <- Promise_all (infoTratte gw segments) ;;
  let allTrains := allTrains_of responses in
  Ok (noDuplicates allTrains).

Definition getAllTrains (gw : gateway) : any_result (list Train) :=
  match getAllTrains_try gw with
  | Ok trains => Value trains
  | Throw err => Err err
  end.

(** *** getStationRegionId *)

Definition getStationRegionId_try (gw : gateway) (stationId : string) : exc Z :=
  res <- await (regioneStazione gw stationId) ;;
  if status res =? 200 then Ok (data res)
  else Throw (ThrownString (status_message res)).

Definition getStationRegionId (gw : gateway) (stationId : string) : Z :=
  match getStationRegionId_try gw stationId with
  | Ok region => region
  | Throw _ => -1
  end.

(** *** getTrainAutocomplete *)

Definition newline : string := String (ascii_of_nat 10) EmptyString.

(** The callback of [map]: [text = el.split('|')], then the three fields in
    the order the object literal lists them. *)
Definition parse_line (el : string) : exc TrainAutocompleteMatch :=
  let text := split "|" el in
  text1 <- read_of (nth_error text 1) "split" ;;
  let trainNumber := nth_error (split "-" text1) 0 in
  text0 <- read_of (nth_error text 0) "split" ;;
  let stationA := nth_error (split " - " text0) 1 in
  let stationIdA := nth_error (split "-" text1) 1 in
  Ok {| m_trainNumber := trainNumber;
        m_stationA := stationA;
        m_stationIdA := stationIdA |}.

Definition getTrainAutocomplete_try (gw : gateway) (trainNumber : string)
  : exc (list TrainAutocompleteMatch) :=
  res <- await (cercaNumeroTrenoTrenoAutocomplete gw trainNumber) ;;
  if status res =? 200 then
    let response := split newline (data res) in
    result <- mapi_exc (fun el _ => parse_line el) 0
                (filter (fun el => negb (String.eqb el "")) response) ;;
    match result with
    | [] => Ok []
    | _ => Ok result
    end
  else Throw (ThrownString "code not 200").

Definition getTrainAutocomplete (gw : gateway) (trainNumber : string)
  : any_result (list TrainAutocompleteMatch) :=
  match getTrainAutocomplete_try gw trainNumber with
  | Ok result => Value result
  | Throw err => Err err
  end.

(** *** Resolving the station id, shared by the two functions below *)

(** What [x[segmentN]] can be when [x] is the value handed back by
    [getTrainAutocomplete]: an element of the array of matches, or one code
    unit of a thrown string.  An [Error] object has no indexed property. *)
Inductive entry : Type :=
| MatchEntry (m : TrainAutocompleteMatch)
| CodeUnit (c : ascii).

Definition entry_at (x : any_result (list TrainAutocompleteMatch)) (segmentN : Z)
  : option entry :=
  match x with
  | Value matches => option_map MatchEntry (at_index matches segmentN)
  | Err (ThrownString s) =>
      if segmentN <? 0 then None
      else option_map CodeUnit (String.get (Z.to_nat segmentN) s)
  | Err _ => None
  end.

(** [stationIdA ?? (await getTrainAutocomplete(trainNumber))[segmentN].stationIdA] *)
Definition resolve_stationId (gw : gateway) (trainNumber : string)
  (stationIdA : option string) (segmentN : Z) : exc (option string) :=
  match stationIdA with
  | Some s => Ok (Some s)
  | None =>
      e <- read_of (entry_at (getTrainAutocomplete gw trainNumber) segmentN)
             "stationIdA" ;;
      match e with
      | MatchEntry m => Ok (m_stationIdA m)
      | CodeUnit _ => Ok None
      end
  end.

(** [`${stationId}`] *)
Definition string_of_stationId (stationId : option string) : string :=
  match stationId with
  | Some s => s
  | None => "undefined"
  end.

(** *** getTrainStopsInfo *)

Definition canvas_stop (el : raw_canvas) : trainStopInfo :=
  let f := fermata el in
  {| stationId := c_id el;
     name := c_stazione el;
     isFirstStop := c_first el;
     isLastStop := c_last el;
     isCurrentStop := stazioneCorrente el;
     expectedArrival := c_arrivo_teorico f;
     actualArrival := c_arrivoReale f;
     expectedDeparture := c_partenza_teorica f;
     actualDeparture := c_partenzaReale f;
     delayAtArrival := Some (c_ritardoArrivo f);
     delayAtDeparture := Some (c_ritardoPartenza f);
     expectedPlatform :=
       if c_first el then c_binarioProgrammatoPartenzaDescrizione f
       else c_binarioProgrammatoArrivoDescrizione f;
     actualPlatform :=
       if c_first el then c_binarioEffettivoPartenzaDescrizione f
       else c_binarioEffettivoArrivoDescrizione f |}.

Definition getTrainStopsInfo_try (gw : gateway) (trainNumber : string)
  (stationIdA : option string) (segmentN : Z) : exc (list trainStopInfo) :=
  stationId <- resolve_stationId gw trainNumber stationIdA segmentN ;;
  res <- await (tratteCanvas gw (string_of_stationId stationId) trainNumber) ;;
  if status res =? 200 then Ok (map canvas_stop (data res))
  else Throw (ThrownString (status_message res)).

Definition getTrainStopsInfo (gw : gateway) (trainNumber : string)
  (stationIdA : option string) (segmentN : Z) : list trainStopInfo :=
  match getTrainStopsInfo_try gw trainNumber stationIdA segmentN with
  | Ok stops => stops
  | Throw _ => []
  end.

(** *** getTrainInfo *)

(** [st.actualFermataType === 1 &&
     (el.fermate[index + 1].actualFermataType === 0 || !el.fermate[index + 1])]:
    the left operand of [||] reads a property of the next element before the
    right operand tests that the element exists. *)
Definition isCurrentStop_of (fermate : list raw_fermata) (st : raw_fermata)
  (index : nat) : exc bool :=
  if actualFermataType st =? 1 then
    next <- read_of (nth_error fermate (index + 1)) "actualFermataType" ;;
    Ok ((actualFermataType next =? 0) || false)
  else Ok false.

(** The callback of [el.fermate.map((st, index) => ...)]. *)
Definition progress_stop (fermate : list raw_fermata) (st : raw_fermata)
  (index : nat) : exc trainStopInfo :=
  current <- isCurrentStop_of fermate st index ;;
  let isP := String.eqb (tipoFermata st) "P" in
  Ok {| stationId := f_id st;
        name := f_stazione st;
        isFirstStop := isP;
        isLastStop := String.eqb (tipoFermata st) "A";
        isCurrentStop := current;
        expectedArrival := arrivo_teorico st;
        actualArrival := arrivoReale st;
        expectedDeparture := partenza_teorica st;
        actualDeparture := partenzaReale st;
        delayAtArrival :=
          if truthy (arrivoReale st) then Some (ritardoArrivo st) else None;
        delayAtDeparture :=
          if truthy (partenzaReale st) then Some (ritardoPartenza st) else None;
        expectedPlatform :=
          if isP then binarioProgrammatoPartenzaDescrizione st
          else binarioProgrammatoArrivoDescrizione st;
        actualPlatform :=
          if isP then binarioEffettivoPartenzaDescrizione st
          else binarioEffettivoArrivoDescrizione st |}.

(** [el.fermate.map(...)] as a whole. *)
Definition stops_of (fermate : list raw_fermata) : exc (list trainStopInfo) :=
  mapi_exc (progress_stop fermate) 0 fermate.

Definition getTrainInfo_try (gw : gateway) (trainNumber : string)
  (stationIdA : option string) (segmentN : Z) : exc trainInfo :=
  stationId <- resolve_stationId gw trainNumber stationIdA segmentN ;;
  res <- await (andamentoTreno gw (string_of_stationId stationId) trainNumber) ;;
  if status res =? 200 then
    let el := data res in
    stops <- stops_of (fermate el) ;;
    Ok {| trainType := tipoTreno el;
          suppressedStops := fermateSoppresse el;
          lastDetection :=
            if truthy (oraUltimoRilevamento el) then oraUltimoRilevamento el
            else None;
          lastDetectionStationName :=
            if negb (String.eqb (stazioneUltimoRilevamento el) "--")
            then Some (stazioneUltimoRilevamento el) else None;
          i_stationIdA := idOrigine el;
          i_stationIdB := idDestinazione el;
          nameA := a_origine el;
          nameB := a_destinazione el;
          hasArrived := a_arrivato el;
          stops := stops |}
  else Throw (ThrownString "code not 200").

Definition getTrainInfo (gw : gateway) (trainNumber : string)
  (stationIdA : option string) (segmentN : Z) : any_result trainInfo :=
  match getTrainInfo_try gw trainNumber stationIdA segmentN with
  | Ok info => Value info
  | Throw err => Err err
  end.

(* ================================================================== *)
(** ** Notions used to state the properties *)
(* ================================================================== *)

Local Open Scope list_scope.

(** [last_with key l t]: [t] occurs in [l] and no element after that
    occurrence has the key of [t]. *)
Definition last_with {A K : Type} (key : A -> K) (l : list A) (t : A) : Prop :=
  exists l1 l2, l = l1 ++ t :: l2 /\ forall u, In u l2 -> key u <> key t.

(** The collapse of a list through a [Map] keyed by [key]. *)
Definition dedup {A : Type} (key : A -> string) (l : list A) : list A :=
  values (Map_of (map (fun x => (key x, x)) l)).

(** [find_sep sep s]: the text before and the text after the leftmost
    occurrence of [sep] in [s], if there is one. *)
Fixpoint find_sep (sep s : string) {struct s} : option (string * string) :=
  if prefix sep s then Some (EmptyString, drop (String.length sep) s)
  else
    match s with
    | EmptyString => None
    | String c s' =>
        match find_sep sep s' with
        | Some (a, b) => Some (String c a, b)
        | None => None
        end
    end.

(** [component sep k s]: the [k]-th of the [sep]-delimited components of
    [s], counted from 0; [None] when [s] has fewer components. *)
Fixpoint component (sep : string) (k : nat) (s : string) : option string :=
  match k, find_sep sep s with
  | O, None => Some s
  | O, Some (a, _) => Some a
  | S _, None => None
  | S k', Some (_, b) => component sep k' b
  end.

(** The longest prefix of [s] with no code unit satisfying [stop]. *)
Fixpoint token_until (stop : ascii -> bool) (s : string) : string :=
  match s with
  | EmptyString => EmptyString
  | String c s' => if stop c then EmptyString else String c (token_until stop s')
  end.

Definition is_space (c : ascii) : bool := Ascii.eqb c " ".

(** The first token of the trimmed string when tokens are delimited by any
    white space, and when they are delimited by the space U+0020 only. *)
Definition first_whitespace_token (s : string) : string :=
  token_until is_whitespace (trim s).

Definition first_space_token (s : string) : string :=
  token_until is_space (trim s).

(** Every white-space code unit of [s] is the space U+0020. *)
Fixpoint only_spaces (s : string) : Prop :=
  match s with
  | EmptyString => True
  | String c s' => (is_whitespace c = true -> c = " "%char) /\ only_spaces s'
  end.

(** Every entry is filed under the key of its value. *)
Definition keyed {A : Type} (key : A -> string) (m : Map A) : Prop :=
  forall k v, In (k, v) m -> k = key v.

(** The map after the elements of [r] were inserted last to first. *)
Definition built {A : Type} (key : A -> string) (r : list A) : Map A :=
  fold_right (fun x m => set (key x) x m) [] r.

(** [t] is the first element of [r] that carries its key. *)
Definition first_with {A : Type} (key : A -> string) (r : list A) (t : A) : Prop :=
  exists r1 r2, r = r1 ++ t :: r2 /\ forall u, In u r1 -> key u <> key t.

(** The hyphen of the [Map] keys, and the strings free of it. *)
Definition dash : ascii := "-"%char.

Fixpoint dashless (s : string) : Prop :=
  match s with
  | EmptyString => True
  | String c s' => c <> dash /\ dashless s'
  end.

(** The pair that identifies a train for deduplication, and the pair that
    identifies a physical track. *)
Definition train_pair (t : Train) : Z * Z := (trainNumber t, regionId t).

Definition segment_pair (s : mapSegment) : Z * Z :=
  (segmentIdAB s, segmentIdBA s).

Definition raw_pair (el : raw_segment) : Z * Z := (trattaAB el, trattaBA el).

Definition pair_eq_dec (x y : Z * Z) : {x = y} + {x <> y}.
Proof. decide equality; apply Z.eq_dec. Defined.

(** The lines [getAllSegments] collapses: the answer, after the [busy]
    filter when requested. *)
Definition lines_of (busy : bool) (res : response (list raw_segment))
  : list raw_segment :=
  if busy then filter occupata (data res) else data res.

(** The non-empty lines of an autocomplete answer. *)
Definition nonempty_lines (text : string) : list string :=
  filter (fun el => negb (String.eqb el "")) (split newline text).

Definition and_then {A B : Type} (x : option A) (f : A -> option B) : option B :=
  match x with
  | Some a => f a
  | None => None
  end.

(** The match a line stands for, in the words of the specification: the
    train number is the first hyphen-delimited component of pipe-delimited
    field 1, the station name the token after the first " - " of field 0,
    the station id the second hyphen-delimited component of field 1. *)
Definition match_of_line (el : string) : TrainAutocompleteMatch :=
  let field0 := component "|" 0 el in
  let field1 := component "|" 1 el in
  {| m_trainNumber := and_then field1 (component "-" 0);
     m_stationA := and_then field0 (component " - " 1);
     m_stationIdA := and_then field1 (component "-" 1) |}.

(** A network on which the catalogue of segments is served but no segment
    carries a train. *)
Definition no_trains (r : response (list raw_tratta)) : Prop :=
  forall tr, In tr (data r) -> treni tr = [].

Definition quiet_network (gw : gateway) : Prop :=
  (exists res, elencoTratte gw = Resolved res /\ status res = 200)
  /\ forall ab ba, exists r, dettagliTratta gw ab ba = Resolved r /\ no_trains r.

(** The last stop of the itinerary does not carry the marker 1. *)
Definition last_stop_unmarked (stops : list raw_fermata) : Prop :=
  forall st, nth_error stops (List.length stops - 1) = Some st ->
             actualFermataType st <> 1.

(** The value [isCurrentStop] takes at index [i] of the itinerary [all] when
    the callback returns. *)
Definition current_at (all : list raw_fermata) (st : raw_fermata) (i : nat)
  : bool :=
  (actualFermataType st =? 1)
  && match nth_error all (i + 1) with
     | Some next => actualFermataType next =? 0
     | None => false
     end.

(** Decidable equality of [jsnum], for checking by computation. *)
Definition jsnum_eqb (a b : jsnum) : bool :=
  match a, b with
  | Num x, Num y => x =? y
  | NaN, NaN => true
  | Untracked, Untracked => true
  | _, _ => false
  end.

(** The decimal digit [n] as a code unit, and the string ["HH:MM"] made of
    four digits. *)
Definition digit_char (n : nat) : ascii := ascii_of_nat (48 + n).

Definition hhmm (h1 h2 m1 m2 : nat) : string :=
  String (digit_char h1) (String (digit_char h2) (String ":"
    (String (digit_char m1) (String (digit_char m2) EmptyString)))).

Definition hhmm_minutes (h1 h2 m1 m2 : nat) : Z :=
  Z.of_nat ((10 * h1 + h2) * 60 + (10 * m1 + m2)).

(** The duration computed from the string alone, as [durataMin] does. *)
Definition minutes_of (compDurata : string) : jsnum :=
  let parts := split ":" compDurata in
  add (mul (Number (nth_error parts 0)) (Num 60)) (Number (nth_error parts 1)).

Definition hhmm_checked (h1 h2 m1 m2 : nat) : bool :=
  jsnum_eqb (minutes_of (hhmm h1 h2 m1 m2)) (Num (hhmm_minutes h1 h2 m1 m2)).

(** [lacks c s]: the code unit [c] does not occur in [s]. *)
Fixpoint lacks (c : ascii) (s : string) : Prop :=
  match s with
  | EmptyString => True
  | String x s' => x <> c /\ lacks c s'
  end.

(** [fresh dec seen l]: the elements of [l] that are neither in [seen] nor
    earlier in [l], in the order of [l]. *)
Fixpoint fresh {K : Type} (dec : forall x y : K, {x = y} + {x <> y})
  (seen l : list K) : list K :=
  match l with
  | [] => []
  | x :: l' =>
      if in_dec dec x seen then fresh dec seen l'
      else x :: fresh dec (x :: seen) l'
  end.

(** Each pair once, in the order of first occurrence. *)
Definition first_occurrences (l : list (Z * Z)) : list (Z * Z) :=
  fresh pair_eq_dec [] l.

(** The printed form of a pair, as the [Map] keys have it. *)
Definition pair_key (p : Z * Z) : string :=
  (string_of_number (fst p) ++ "-" ++ string_of_number (snd p))%string.

(** A text made of newlines only. *)
Fixpoint only_newlines (s : string) : Prop :=
  match s with
  | EmptyString => True
  | String c s' => c = ascii_of_nat 10 /\ only_newlines s'
  end.

(** A line of the autocomplete answer in its regular form:
    ["<number> - <station> - <date>|<number>-<station id>-<timestamp>"]. *)
Definition regular_label (number station date : string) : string :=
  (number ++ " - " ++ station ++ " - " ++ date)%string.

Definition regular_code (number stationId timestamp : string) : string :=
  (number ++ "-" ++ stationId ++ "-" ++ timestamp)%string.

Definition regular_line (label code : string) : string :=
  (label ++ "|" ++ code)%string.

(** The message of the [TypeError] raised by [text[1].split]. *)
Definition no_field_1 : error :=
  TypeError "Cannot read properties of undefined (reading 'split')".

(* ================================================================== *)
(** ** Sample upstream data *)
(* ================================================================== *)

(** A Frecciarossa as the upstream reports it: no category, the category
    prefixed to the formatted number after a leading space. *)
Definition frecciarossa : raw_train :=
  {| arrivato := false;
     nonPartito := false;
     circolante := true;
     inStazione := false;
     dataPartenzaTreno := 1762124400000;
     tratta := 12;
     regione := 3;
     categoria := "";
     compNumeroTreno := " FR 9516";
     numeroTreno := 9516;
     haCambiNumero := false;
     origine := "MILANO CENTRALE";
     codOrigine := "S01700";
     destinazione := "ROMA TERMINI";
     codDestinazione := "S08409";
     compDurata := "02:15";
     ritardo := 4;
     ultimoRilev := Some 1762128000000 |}.

Definition with_flags (arr nonPart : bool) (el : raw_train) : raw_train :=
  {| arrivato := arr;
     nonPartito := nonPart;
     circolante := circolante el;
     inStazione := inStazione el;
     dataPartenzaTreno := dataPartenzaTreno el;
     tratta := tratta el;
     regione := regione el;
     categoria := categoria el;
     compNumeroTreno := compNumeroTreno el;
     numeroTreno := numeroTreno el;
     haCambiNumero := haCambiNumero el;
     origine := origine el;
     codOrigine := codOrigine el;
     destinazione := destinazione el;
     codDestinazione := codDestinazione el;
     compDurata := compDurata el;
     ritardo := ritardo el;
     ultimoRilev := ultimoRilev el |}.

Definition with_number (formatted : string) (el : raw_train) : raw_train :=
  {| arrivato := arrivato el;
     nonPartito := nonPartito el;
     circolante := circolante el;
     inStazione := inStazione el;
     dataPartenzaTreno := dataPartenzaTreno el;
     tratta := tratta el;
     regione := regione el;
     categoria := categoria el;
     compNumeroTreno := formatted;
     numeroTreno := numeroTreno el;
     haCambiNumero := haCambiNumero el;
     origine := origine el;
     codOrigine := codOrigine el;
     destinazione := destinazione el;
     codDestinazione := codDestinazione el;
     compDurata := compDurata el;
     ritardo := ritardo el;
     ultimoRilev := ultimoRilev el |}.

Definition with_region (r delayed : Z) (el : raw_train) : raw_train :=
  {| arrivato := arrivato el;
     nonPartito := nonPartito el;
     circolante := circolante el;
     inStazione := inStazione el;
     dataPartenzaTreno := dataPartenzaTreno el;
     tratta := tratta el;
     regione := r;
     categoria := categoria el;
     compNumeroTreno := compNumeroTreno el;
     numeroTreno := numeroTreno el;
     haCambiNumero := haCambiNumero el;
     origine := origine el;
     codOrigine := codOrigine el;
     destinazione := destinazione el;
     codDestinazione := codDestinazione el;
     compDurata := compDurata el;
     ritardo := delayed;
     ultimoRilev := ultimoRilev el |}.

(** The same train with a TAB between category and number. *)
Definition tab : string := String (ascii_of_nat 9) EmptyString.

Definition tabbed : raw_train :=
  with_number ("FR" ++ tab ++ "9516")%string frecciarossa.

Definition ok {D : Type} (d : D) : axios_result D :=
  Resolved {| status := 200; statusText := "OK"; data := d |}.

Definition network_error {D : Type} : axios_result D :=
  Rejected (AxiosError "Network Error").

Definition track (ab ba : Z) (a b : string) (occupied : bool) : raw_segment :=
  {| nodoA := a; nodoB := b; trattaAB := ab; trattaBA := ba;
     latitudineA := 45 # 1; longitudineA := 9 # 1;
     latitudineB := 44 # 1; longitudineB := 11 # 1;
     occupata := occupied |}.

Definition stop_marked (station : string) (kind : string) (marker : Z)
  : raw_fermata :=
  {| f_stazione := station;
     f_id := "S07113";
     arrivoReale := None;
     partenzaReale := None;
     ritardoArrivo := 0;
     ritardoPartenza := 0;
     tipoFermata := kind;
     actualFermataType := marker;
     arrivo_teorico := None;
     partenza_teorica := None;
     binarioProgrammatoPartenzaDescrizione := Some "1";
     binarioProgrammatoArrivoDescrizione := Some "2";
     binarioEffettivoPartenzaDescrizione := None;
     binarioEffettivoArrivoDescrizione := None |}.

Definition progress (stops : list raw_fermata) : raw_andamento :=
  {| tipoTreno := "PG";
     fermateSoppresse := [];
     oraUltimoRilevamento := Some 1762128000000;
     stazioneUltimoRilevamento := "--";
     idOrigine := "S07113";
     idDestinazione := "S05043";
     a_origine := "ANCONA";
     a_destinazione := "BOLOGNA";
     a_arrivato := false;
     fermate := stops |}.

Definition canvas_sample : raw_canvas :=
  {| c_id := "S07113";
     c_stazione := "ANCONA";
     c_first := true;
     c_last := false;
     stazioneCorrente := false;
     fermata :=
       {| c_arrivo_teorico := None;
          c_arrivoReale := None;
          c_partenza_teorica := Some 1762124400000;
          c_partenzaReale := Some 1762124460000;
          c_ritardoArrivo := 0;
          c_ritardoPartenza := 1;
          c_binarioProgrammatoPartenzaDescrizione := Some "3";
          c_binarioProgrammatoArrivoDescrizione := None;
          c_binarioEffettivoPartenzaDescrizione := Some "4";
          c_binarioEffettivoArrivoDescrizione := None |} |}.

Definition autocomplete_line : string :=
  "3914 - ANCONA - 03/11/25|3914-S07113-1762124400000".

(** A network that answers every request. *)
Definition gw_up : gateway :=
  {| elencoStazioni :=
       ok [ {| codStazione := "S07113";
               localita := {| nomeLungo := "ANCONA" |};
               nomeCitta := "ANCONA";
               lat := 43 # 1;
               lon := 13 # 1 |} ];
     elencoTratte :=
       ok [ track 10 11 "S01700" "S05043" true;
            track 10 11 "S01700" "S05043" false;
            track 20 21 "S05043" "S08409" true ];
     dettagliTratta := fun ab _ =>
       if ab =? 10
       then ok [ {| treni := [frecciarossa; with_region 7 0 frecciarossa] |} ]
       else ok [ {| treni := [with_region 3 9 frecciarossa;
                              with_flags true true frecciarossa] |} ];
     regioneStazione := fun _ => ok 3;
     cercaNumeroTrenoTrenoAutocomplete := fun _ =>
       ok (autocomplete_line ++ newline)%string;
     tratteCanvas := fun _ _ => ok [canvas_sample];
     andamentoTreno := fun _ _ =>
       ok (progress [stop_marked "ANCONA" "P" 1;
                     stop_marked "RIMINI" "F" 1;
                     stop_marked "BOLOGNA" "A" 0]) |}.

(** A network on which every request fails in transport. *)
Definition gw_down : gateway :=
  {| elencoStazioni := network_error;
     elencoTratte := network_error;
     dettagliTratta := fun _ _ => network_error;
     regioneStazione := fun _ => network_error;
     cercaNumeroTrenoTrenoAutocomplete := fun _ => network_error;
     tratteCanvas := fun _ _ => network_error;
     andamentoTreno := fun _ _ => network_error |}.


(** Only the catalogue of segments fails. *)
Definition gw_catalog_down : gateway :=
  {| elencoStazioni := elencoStazioni gw_up;
     elencoTratte := network_error;
     dettagliTratta := dettagliTratta gw_up;
     regioneStazione := regioneStazione gw_up;
     cercaNumeroTrenoTrenoAutocomplete := cercaNumeroTrenoTrenoAutocomplete gw_up;
     tratteCanvas := tratteCanvas gw_up;
     andamentoTreno := andamentoTreno gw_up |}.

(** Segments are served, none of them carries a train. *)
Definition gw_quiet : gateway :=
  {| elencoStazioni := elencoStazioni gw_up;
     elencoTratte := elencoTratte gw_up;
     dettagliTratta := fun _ _ => ok [ {| treni := [] |} ];
     regioneStazione := regioneStazione gw_up;
     cercaNumeroTrenoTrenoAutocomplete := cercaNumeroTrenoTrenoAutocomplete gw_up;
     tratteCanvas := tratteCanvas gw_up;
     andamentoTreno := andamentoTreno gw_up |}.

(** The autocomplete finds nothing: an empty body. *)
Definition gw_no_match : gateway :=
  {| elencoStazioni := elencoStazioni gw_up;
     elencoTratte := elencoTratte gw_up;
     dettagliTratta := dettagliTratta gw_up;
     regioneStazione := regioneStazione gw_up;
     cercaNumeroTrenoTrenoAutocomplete := fun _ => ok "";
     tratteCanvas := tratteCanvas gw_up;
     andamentoTreno := andamentoTreno gw_up |}.

(** The per-segment details are served with status 203. *)
Definition gw_details_203 : gateway :=
  {| elencoStazioni := elencoStazioni gw_up;
     elencoTratte := elencoTratte gw_up;
     dettagliTratta := fun _ _ =>
       Resolved {| status := 203;
                   statusText := "Non-Authoritative Information";
                   data := [ {| treni := [frecciarossa] |} ] |};
     regioneStazione := regioneStazione gw_up;
     cercaNumeroTrenoTrenoAutocomplete := cercaNumeroTrenoTrenoAutocomplete gw_up;
     tratteCanvas := tratteCanvas gw_up;
     andamentoTreno := andamentoTreno gw_up |}.

(** The autocomplete is served with status 204. *)
Definition gw_autocomplete_204 : gateway :=
  {| elencoStazioni := elencoStazioni gw_up;
     elencoTratte := elencoTratte gw_up;
     dettagliTratta := dettagliTratta gw_up;
     regioneStazione := regioneStazione gw_up;
     cercaNumeroTrenoTrenoAutocomplete := fun _ =>
       Resolved {| status := 204; statusText := "No Content"; data := "" |};
     tratteCanvas := tratteCanvas gw_up;
     andamentoTreno := andamentoTreno gw_up |}.

(** Itineraries for the current-stop inference. *)
Definition stops_1_2 : list raw_fermata :=
  [stop_marked "ANCONA" "P" 1; stop_marked "BOLOGNA" "A" 2].

Definition stops_last_marked : list raw_fermata :=
  [stop_marked "ANCONA" "P" 1; stop_marked "BOLOGNA" "A" 1].

Definition with_duration (d : string) (el : raw_train) : raw_train :=
  {| arrivato := arrivato el;
     nonPartito := nonPartito el;
     circolante := circolante el;
     inStazione := inStazione el;
     dataPartenzaTreno := dataPartenzaTreno el;
     tratta := tratta el;
     regione := regione el;
     categoria := categoria el;
     compNumeroTreno := compNumeroTreno el;
     numeroTreno := numeroTreno el;
     haCambiNumero := haCambiNumero el;
     origine := origine el;
     codOrigine := codOrigine el;
     destinazione := destinazione el;
     codDestinazione := codDestinazione el;
     compDurata := d;
     ritardo := ritardo el;
     ultimoRilev := ultimoRilev el |}.

(** The autocomplete answers a regular line followed by one without a pipe. *)
Definition gw_broken_line : gateway :=
  {| elencoStazioni := elencoStazioni gw_up;
     elencoTratte := elencoTratte gw_up;
     dettagliTratta := dettagliTratta gw_up;
     regioneStazione := regioneStazione gw_up;
     cercaNumeroTrenoTrenoAutocomplete := fun _ =>
       ok (autocomplete_line ++ newline ++ "3914 ANCONA" ++ newline)%string;
     tratteCanvas := tratteCanvas gw_up;
     andamentoTreno := andamentoTreno gw_up |}.

(** The autocomplete answers two blank lines. *)
Definition gw_blank : gateway :=
  {| elencoStazioni := elencoStazioni gw_up;
     elencoTratte := elencoTratte gw_up;
     dettagliTratta := dettagliTratta gw_up;
     regioneStazione := regioneStazione gw_up;
     cercaNumeroTrenoTrenoAutocomplete := fun _ => ok (newline ++ newline)%string;
     tratteCanvas := tratteCanvas gw_up;
     andamentoTreno := andamentoTreno gw_up |}.

(** A catalogue of segments without repeated pairs. *)
Definition gw_distinct : gateway :=
  {| elencoStazioni := elencoStazioni gw_up;
     elencoTratte :=
       ok [ track 10 11 "S01700" "S05043" true;
            track 20 21 "S05043" "S08409" false ];
     dettagliTratta := dettagliTratta gw_up;
     regioneStazione := regioneStazione gw_up;
     cercaNumeroTrenoTrenoAutocomplete := cercaNumeroTrenoTrenoAutocomplete gw_up;
     tratteCanvas := tratteCanvas gw_up;
     andamentoTreno := andamentoTreno gw_up |}.

(** The itinerary ends on a stop marked 1. *)
Definition gw_last_marked : gateway :=
  {| elencoStazioni := elencoStazioni gw_up;
     elencoTratte := elencoTratte gw_up;
     dettagliTratta := dettagliTratta gw_up;
     regioneStazione := regioneStazione gw_up;
     cercaNumeroTrenoTrenoAutocomplete := cercaNumeroTrenoTrenoAutocomplete gw_up;
     tratteCanvas := tratteCanvas gw_up;
     andamentoTreno := fun _ _ => ok (progress stops_last_marked) |}.

(* ================================================================== *)
(** ** The insertion-ordered Map *)
(* ================================================================== *)

Section MapFacts.

Context {A : Type} (key : A -> string).

Lemma set_keys_in (k : string) (v : A) (m : Map A) (k' : string) :
  In k' (map fst (set k v m)) <-> k' = k \/ In k' (map fst m).
Proof.
  induction m as [|[k0 v0] m IH]; simpl.
  - intuition.
  - destruct (String.eqb_spec k0 k) as [->|Hne]; simpl.
    + intuition.
    + rewrite IH. intuition.
Qed.

Lemma set_NoDup (k : string) (v : A) (m : Map A) :
  NoDup (map fst m) -> NoDup (map fst (set k v m)).
Proof.
  induction m as [|[k0 v0] m IH]; simpl; intros Hnd.
  - constructor; [intros [] | constructor].
  - inversion Hnd as [|? ? Hnotin Hnd']; subst.
    destruct (String.eqb_spec k0 k) as [->|Hne]; simpl.
    + constructor; assumption.
    + constructor; [|auto].
      rewrite set_keys_in. intros [Heq|Hin]; [congruence | contradiction].
Qed.

Lemma set_In (k : string) (v : A) (m : Map A) (k' : string) (v' : A) :
  NoDup (map fst m) ->
  In (k', v') (set k v m) <->
  (k' = k /\ v' = v) \/ (k' <> k /\ In (k', v') m).
Proof.
  induction m as [|[k0 v0] m IH]; simpl; intros Hnd.
  - split.
    + intros [[= <- <-]|[]]. left. split; reflexivity.
    + intros [[-> ->]|[_ []]]. left. reflexivity.
  - inversion Hnd as [|? ? Hnotin Hnd']; subst.
    destruct (String.eqb_spec k0 k) as [->|Hne]; simpl.
    + split.
      * intros [[= <- <-]|Hin]; [left; split; reflexivity|].
        right. split; [|right; exact Hin].
        intros ->. apply Hnotin. apply (in_map fst) in Hin. exact Hin.
      * intros [[-> ->]|[Hne [[= Hk _]|Hin]]].
        -- left. reflexivity.
        -- congruence.
        -- right. exact Hin.
    + rewrite (IH Hnd'). split.
      * intros [[= <- <-]|[H|H]].
        -- right. split; [exact Hne | left; reflexivity].
        -- left. exact H.
        -- right. destruct H as [H1 H2]. split; [exact H1 | right; exact H2].
      * intros [H|[H1 [[= <- <-]|H2]]].
        -- right. left. exact H.
        -- left. reflexivity.
        -- right. right. split; assumption.
Qed.

Lemma Map_of_built (l : list A) :
  Map_of (map (fun x => (key x, x)) l) = built key (rev l).
Proof.
  unfold Map_of, built.
  rewrite <- fold_left_rev_right, <- map_rev.
  induction (rev l) as [|x r IH]; simpl; [reflexivity|].
  rewrite IH. reflexivity.
Qed.

Lemma built_NoDup (r : list A) : NoDup (map fst (built key r)).
Proof.
  induction r as [|x r IH]; simpl; [constructor | apply set_NoDup, IH].
Qed.

Lemma built_keyed (r : list A) : keyed key (built key r).
Proof.
  induction r as [|x r IH]; simpl; intros k v Hin; [destruct Hin|].
  apply set_In in Hin; [|apply built_NoDup].
  destruct Hin as [[-> ->]|[_ Hin]]; [reflexivity | apply IH, Hin].
Qed.

Lemma keyed_values (m : Map A) :
  keyed key m -> map key (values m) = map fst m.
Proof.
  unfold values. induction m as [|[k v] m IH]; simpl; intros Hk; [reflexivity|].
  rewrite IH.
  - rewrite (Hk k v (or_introl eq_refl)). reflexivity.
  - intros k' v' Hin. apply Hk. right. exact Hin.
Qed.

Lemma keyed_In_values (m : Map A) (t : A) :
  keyed key m -> In t (values m) <-> In (key t, t) m.
Proof.
  intros Hk. unfold values. rewrite in_map_iff. split.
  - intros [[k v] [<- Hin]]. simpl. rewrite <- (Hk k v Hin). exact Hin.
  - intros Hin. exists (key t, t). split; [reflexivity | exact Hin].
Qed.

Lemma built_In (r : list A) (t : A) :
  In t (values (built key r)) <-> first_with key r t.
Proof.
  rewrite (keyed_In_values _ _ (built_keyed r)).
  induction r as [|x r IH]; simpl.
  - split; [intros [] | intros ([|? ?] & r2 & Heq & _); discriminate].
  - rewrite (set_In _ _ _ _ _ (built_NoDup r)), IH. split.
    + intros [[_ ->]|[Hne (r1 & r2 & -> & Hfirst)]].
      * exists [], r. split; [reflexivity | intros u []].
      * exists (x :: r1), r2. split; [reflexivity|].
        intros u [<-|Hu]; [congruence | apply Hfirst, Hu].
    + intros ([|y r1] & r2 & Heq & Hfirst); simpl in Heq;
        injection Heq as -> ->.
      * left. split; reflexivity.
      * right. split.
        -- intros Heq. apply (Hfirst y (or_introl eq_refl)).
           symmetry. exact Heq.
        -- exists r1, r2. split; [reflexivity|].
           intros u Hu. apply Hfirst. right. exact Hu.
Qed.

Lemma first_with_rev (l : list A) (t : A) :
  first_with key (rev l) t <-> last_with key l t.
Proof.
  split; intros (l1 & l2 & Heq & Hk).
  - exists (rev l2), (rev l1). split.
    + rewrite <- (rev_involutive l), Heq, rev_app_distr. simpl.
      rewrite <- app_assoc. reflexivity.
    + intros u Hu. apply Hk. apply in_rev. exact Hu.
  - exists (rev l2), (rev l1). split.
    + rewrite Heq, rev_app_distr. simpl. rewrite <- app_assoc. reflexivity.
    + intros u Hu. apply Hk. apply in_rev. exact Hu.
Qed.

(** The values of the map are the elements that are last under their key. *)
Lemma dedup_In (l : list A) (t : A) :
  In t (dedup key l) <-> last_with key l t.
Proof.
  unfold dedup. rewrite Map_of_built, built_In. apply first_with_rev.
Qed.

(** No two values of the map share a key. *)
Lemma dedup_NoDup (l : list A) : NoDup (map key (dedup key l)).
Proof.
  unfold dedup. rewrite Map_of_built.
  rewrite (keyed_values _ (built_keyed _)). apply built_NoDup.
Qed.

(** Every key of the input has a last bearer. *)
Lemma last_with_cons (x : A) (l : list A) (t : A) :
  last_with key l t -> last_with key (x :: l) t.
Proof.
  intros (l1 & l2 & -> & Hl).
  exists (x :: l1), l2. split; [reflexivity | exact Hl].
Qed.

(** Every key of the input has a last bearer. *)
Lemma last_with_exists (l : list A) :
  forall t, In t l -> exists t', key t' = key t /\ last_with key l t'.
Proof.
  induction l as [|x l IH]; intros t Hin; [destruct Hin|].
  destruct (in_dec string_dec (key t) (map key l)) as [Hk|Hk].
  - apply in_map_iff in Hk. destruct Hk as (u & Hu & Hinu).
    destruct (IH u Hinu) as (t' & Ht' & Hlast).
    exists t'. split; [congruence | apply last_with_cons, Hlast].
  - destruct Hin as [->|Hin].
    + exists t. split; [reflexivity|].
      exists [], l. split; [reflexivity|].
      intros w Hw Heq. apply Hk. rewrite <- Heq. apply in_map, Hw.
    + exfalso. apply Hk. apply in_map, Hin.
Qed.

(** Every key of the input is represented among the values. *)
Lemma dedup_covers (l : list A) (t : A) :
  In t l -> exists t', In t' (dedup key l) /\ key t' = key t.
Proof.
  intros Hin. destruct (last_with_exists l t Hin) as (t' & Hk & Hlast).
  exists t'. split; [apply dedup_In, Hlast | exact Hk].
Qed.

Lemma dedup_incl (l : list A) (t : A) : In t (dedup key l) -> In t l.
Proof.
  rewrite dedup_In. intros (l1 & l2 & -> & _).
  apply in_or_app. right. left. reflexivity.
Qed.

(** Two elements under different keys do not displace each other. *)
Lemma dedup_pair_distinct (t1 t2 : A) :
  key t1 <> key t2 -> dedup key [t1; t2] = [t1; t2].
Proof.
  intros Hne. unfold dedup, Map_of, values. simpl.
  destruct (String.eqb_spec (key t1) (key t2)); [contradiction | reflexivity].
Qed.

(** Of two elements under one key the later one stays. *)
Lemma dedup_pair_same (t1 t2 : A) :
  key t1 = key t2 -> dedup key [t1; t2] = [t2].
Proof.
  intros Heq. unfold dedup, Map_of, values. simpl.
  destruct (String.eqb_spec (key t1) (key t2)); [reflexivity | contradiction].
Qed.

End MapFacts.

(* ================================================================== *)
(** ** Integers inside template literals *)
(* ================================================================== *)

Lemma string_of_uint_dashless (d : Decimal.uint) :
  dashless (NilEmpty.string_of_uint d).
Proof.
  induction d; simpl; try exact I; (split; [discriminate | assumption]).
Qed.

Lemma string_of_uint_nonempty (d : Decimal.uint) :
  d <> Decimal.Nil ->
  exists c s, NilEmpty.string_of_uint d = String c s /\ c <> dash.
Proof.
  intros Hd. pose proof (string_of_uint_dashless d) as Hdl.
  destruct d; [congruence| simpl in *..];
    (eexists; eexists; split; [reflexivity | apply Hdl]).
Qed.

(** Two dash-free strings followed by a dash and anything can be told
    apart at the first dash. *)
Lemma dashless_cut (x x' y y' : string) :
  dashless x -> dashless x' ->
  (x ++ String dash y = x' ++ String dash y')%string ->
  x = x' /\ y = y'.
Proof.
  revert x'. induction x as [|c x IH]; intros [|c' x']; simpl.
  - intros _ _ [= ->]. split; reflexivity.
  - intros _ [Hc _] [= Heq _]. congruence.
  - intros [Hc _] _ [= Heq _]. congruence.
  - intros [_ Hx] [_ Hx'] [= -> Heq].
    destruct (IH x' Hx Hx' Heq) as [-> ->]. split; reflexivity.
Qed.

(** The shape of a printed integer: digits, or a minus sign and digits. *)
Lemma string_of_number_shape (z : Z) :
  (exists c s, string_of_number z = String c s /\ c <> dash /\ dashless s)
  \/ (exists s, string_of_number z = String dash s /\ dashless s).
Proof.
  unfold string_of_number.
  destruct z as [|p|p]; simpl.
  - left. exists "0"%char, EmptyString.
    split; [reflexivity | split; [discriminate | exact I]].
  - left.
    destruct (string_of_uint_nonempty (Pos.to_uint p)) as (c & s & Heq & Hc).
    { apply Unsigned.to_uint_nonnil. }
    exists c, s. split; [exact Heq | split; [exact Hc|]].
    pose proof (string_of_uint_dashless (Pos.to_uint p)) as Hdl.
    rewrite Heq in Hdl. apply Hdl.
  - right. eexists. split; [reflexivity | apply string_of_uint_dashless].
Qed.

Lemma string_of_number_inj (a b : Z) :
  string_of_number a = string_of_number b -> a = b.
Proof.
  unfold string_of_number. intros Heq.
  apply DecimalZ.to_int_inj.
  assert (H : Some (Z.to_int a) = Some (Z.to_int b)).
  { rewrite <- !NilEmpty.isi. rewrite Heq. reflexivity. }
  injection H as H. exact H.
Qed.

(** [`${a}-${b}`] determines [a] and [b]. *)
Lemma number_key_inj (a b c d : Z) :
  (string_of_number a ++ "-" ++ string_of_number b
   = string_of_number c ++ "-" ++ string_of_number d)%string ->
  a = c /\ b = d.
Proof.
  intros Heq.
  assert (Hcut : string_of_number a = string_of_number c
                 /\ string_of_number b = string_of_number d).
  { destruct (string_of_number_shape a) as [(ca & sa & Ha & Hca & Hsa)|(sa & Ha & Hsa)];
      destruct (string_of_number_shape c) as [(cc & sc & Hc & Hcc & Hsc)|(sc & Hc & Hsc)];
      rewrite Ha, Hc in *; simpl in Heq.
    - apply (dashless_cut (String ca sa) (String cc sc)) in Heq;
        simpl; auto.
    - injection Heq as Hh _. congruence.
    - injection Heq as Hh _. congruence.
    - injection Heq as Heq.
      apply dashless_cut in Heq; auto.
      destruct Heq as [-> ->]. split; reflexivity. }
  destruct Hcut as [H1 H2].
  split; apply string_of_number_inj; assumption.
Qed.


(* ================================================================== *)
(** ** String.prototype.split *)
(* ================================================================== *)

Section Split.

Variable sep : string.
Hypothesis sep_nonempty : sep <> EmptyString.

Lemma split_go_skip (k : nat) (s : string) :
  split_go sep k s = split_go sep 0 (drop k s).
Proof.
  revert k. induction s as [|c s IH]; intros [|k]; simpl; try reflexivity.
  apply IH.
Qed.

Lemma split_nonempty_sep (s : string) :
  split sep s = let (p, ps) := split_go sep 0 s in p :: ps.
Proof.
  unfold split. destruct sep; [congruence | reflexivity].
Qed.

Lemma prefix_empty_r : prefix sep EmptyString = false.
Proof.
  destruct sep; [congruence | reflexivity].
Qed.

(** [split] cuts at the leftmost occurrence and goes on with the rest. *)
Lemma split_unfold (s : string) :
  split sep s =
  match find_sep sep s with
  | None => [s]
  | Some (a, b) => a :: split sep b
  end.
Proof.
  induction s as [|c s IH].
  - rewrite split_nonempty_sep. cbn [split_go find_sep].
    rewrite prefix_empty_r. reflexivity.
  - rewrite split_nonempty_sep.
    cbn [split_go find_sep].
    destruct (prefix sep (String c s)) eqn:Hp.
    + rewrite split_go_skip, split_nonempty_sep.
      replace (drop (String.length sep) (String c s))
        with (drop (String.length sep - 1) s).
      * destruct (split_go sep 0 (drop (String.length sep - 1) s));
          reflexivity.
      * destruct sep as [|c0 sep']; [congruence|]. simpl.
        rewrite Nat.sub_0_r. reflexivity.
    + rewrite split_nonempty_sep in IH.
      destruct (split_go sep 0 s) as [p ps].
      destruct (find_sep sep s) as [[a b]|].
      * injection IH as -> ->. reflexivity.
      * injection IH as -> ->. reflexivity.
Qed.

(** Indexing the result of [split] picks the delimited component. *)
Lemma nth_split_component (k : nat) :
  forall s, nth_error (split sep s) k = component sep k s.
Proof.
  induction k as [|k IH]; intros s; rewrite split_unfold;
    cbn [component]; destruct (find_sep sep s) as [[a b]|].
  - reflexivity.
  - reflexivity.
  - cbn [nth_error]. apply IH.
  - destruct k; reflexivity.
Qed.

Lemma prefix_drop (s : string) :
  prefix sep s = true -> s = (sep ++ drop (String.length sep) s)%string.
Proof.
  clear sep_nonempty. revert s.
  induction sep as [|c0 sep' IH]; intros s Hp; simpl.
  - destruct s; reflexivity.
  - destruct s as [|c s]; simpl in Hp; [discriminate|].
    destruct (ascii_dec c0 c) as [->|]; [|discriminate].
    simpl. f_equal. apply IH, Hp.
Qed.

Lemma prefix_append (b : string) : prefix sep (sep ++ b) = true.
Proof.
  clear sep_nonempty.
  induction sep as [|c0 sep' IH]; simpl.
  - destruct b; reflexivity.
  - destruct (ascii_dec c0 c0); [exact IH | congruence].
Qed.

(** What [find_sep] returns is a decomposition of the string ... *)
Lemma find_sep_sound (s a b : string) :
  find_sep sep s = Some (a, b) -> s = (a ++ sep ++ b)%string.
Proof.
  revert a. induction s as [|c s IH]; intros a; cbn [find_sep].
  - rewrite prefix_empty_r. discriminate.
  - destruct (prefix sep (String c s)) eqn:Hp.
    + intros [= <- <-]. apply prefix_drop, Hp.
    + destruct (find_sep sep s) as [[a0 b0]|]; [|discriminate].
      intros [= <- <-]. simpl. f_equal. apply IH. reflexivity.
Qed.

(** ... at the leftmost occurrence of the separator ... *)
Lemma find_sep_leftmost (s a b a' b' : string) :
  find_sep sep s = Some (a, b) ->
  s = (a' ++ sep ++ b')%string ->
  (String.length a <= String.length a')%nat.
Proof.
  revert a a'. induction s as [|c s IH]; intros a a'; cbn [find_sep].
  - rewrite prefix_empty_r. discriminate.
  - destruct (prefix sep (String c s)) eqn:Hp.
    + intros [= <- <-] _. simpl. lia.
    + destruct (find_sep sep s) as [[a0 b0]|]; [|discriminate].
      intros [= <- <-] Heq. destruct a' as [|c' a''].
      * simpl in Heq. rewrite Heq, prefix_append in Hp. discriminate.
      * simpl in Heq. injection Heq as _ Heq. simpl.
        apply le_n_S. apply (IH a0 a''); [reflexivity | exact Heq].
Qed.

(** ... and it finds one whenever the separator occurs. *)
Lemma find_sep_complete (s a' b' : string) :
  s = (a' ++ sep ++ b')%string -> find_sep sep s <> None.
Proof.
  revert a'. induction s as [|c s IH]; intros a' Heq; cbn [find_sep].
  - destruct a'; simpl in Heq.
    + destruct sep; [congruence | discriminate].
    + discriminate.
  - destruct (prefix sep (String c s)) eqn:Hp; [discriminate|].
    destruct a' as [|c' a'']; simpl in Heq.
    + rewrite Heq, prefix_append in Hp. discriminate.
    + injection Heq as _ Heq. specialize (IH a'' Heq).
      destruct (find_sep sep s) as [[a0 b0]|]; [discriminate | congruence].
Qed.

Lemma length_append (a b : string) :
  String.length (a ++ b) = (String.length a + String.length b)%nat.
Proof.
  induction a as [|c a IH]; simpl; [reflexivity | rewrite IH; reflexivity].
Qed.

(** Joining the pieces with the separator gives the string back. *)
Lemma split_concat (s : string) : String.concat sep (split sep s) = s.
Proof.
  remember (String.length s) as n eqn:Hn.
  revert s Hn. induction n as [n IH] using lt_wf_ind. intros s Hn.
  rewrite split_unfold. destruct (find_sep sep s) as [[a b]|] eqn:Hf;
    [|reflexivity].
  pose proof (find_sep_sound _ _ _ Hf) as Hs.
  assert (Hlen : (String.length b < n)%nat).
  { rewrite Hn, Hs, !length_append.
    destruct sep; [congruence | simpl; lia]. }
  specialize (IH _ Hlen b eq_refl).
  rewrite (split_unfold b) in IH |- *.
  destruct (find_sep sep b) as [[a' b']|].
  - change (String.concat sep (a :: a' :: split sep b'))
      with (a ++ sep ++ String.concat sep (a' :: split sep b'))%string.
    rewrite IH. symmetry. exact Hs.
  - symmetry. exact Hs.
Qed.

End Split.

Lemma prefix_char (c c' : ascii) (s : string) :
  prefix (String c EmptyString) (String c' s) = Ascii.eqb c' c.
Proof.
  cbn [prefix]. destruct (ascii_dec c c') as [->|Hne].
  - rewrite Ascii.eqb_refl. destruct s; reflexivity.
  - symmetry. apply Ascii.eqb_neq. congruence.
Qed.

(** With a one-character separator, the first component is the text before
    the first occurrence of that character. *)
Lemma component_char_first (c : ascii) (s : string) :
  component (String c EmptyString) 0 s
  = Some (token_until (fun x => Ascii.eqb x c) s).
Proof.
  induction s as [|c' s IH]; [reflexivity|].
  cbn [component find_sep token_until] in *. rewrite prefix_char.
  destruct (Ascii.eqb c' c); [reflexivity|].
  destruct (find_sep (String c EmptyString) s) as [[a b]|];
    injection IH as <-; reflexivity.
Qed.

Lemma split_space_first (s : string) :
  nth_error (split " " s) 0 = Some (token_until is_space s).
Proof.
  rewrite nth_split_component by discriminate.
  apply component_char_first.
Qed.

(* ================================================================== *)
(** ** getAllTrains: filter and normalisation *)
(* ================================================================== *)

(** C1 (as amended). The filter of the aggregator keeps a raw record exactly
    when the train has not arrived or has departed, [departed] being the
    negation of [nonPartito]: a record with arrived and departed both true is
    kept, one with both false is kept, and one that has arrived without
    having departed is dropped. *)
Theorem keep_iff_not_arrived_or_departed (el : raw_train) :
  (keep el = true <->
     arrived (newData el) = false \/ departed (newData el) = true)
  /\ (arrived (newData el) = true -> departed (newData el) = true ->
      keep el = true)
  /\ (arrived (newData el) = false -> departed (newData el) = false ->
      keep el = true)
  /\ (arrived (newData el) = true -> departed (newData el) = false ->
      keep el = false).
Proof.
  unfold keep, newData; simpl.
  destruct (arrivato el), (nonPartito el); simpl; intuition congruence.
Qed.

Lemma keep_iff_not_arrived_or_departed_witness :
  keep (with_flags true false frecciarossa) = true
  /\ keep (with_flags true true frecciarossa) = false.
Proof.
  split.
  - apply (proj1 (proj2 (keep_iff_not_arrived_or_departed
                           (with_flags true false frecciarossa))));
      reflexivity.
  - apply (proj2 (proj2 (proj2 (keep_iff_not_arrived_or_departed
                                  (with_flags true true frecciarossa)))));
      reflexivity.
Defined.

(** The rule "keep iff not arrived or not departed" fails on a record that
    has both arrived and departed: the filter keeps it. *)
Lemma keep_not_arrived_or_not_departed_fails :
  ~ (forall el : raw_train,
        keep el = true <->
        arrived (newData el) = false \/ departed (newData el) = false).
Proof.
  intros H.
  destruct (proj1 (H (with_flags true false frecciarossa)) eq_refl);
    discriminate.
Qed.

(** Every train handed on by the [then] callback passed the filter. *)
Lemma allTrains_of_kept (responses : list (response (list raw_tratta)))
  (t : Train) :
  In t (allTrains_of responses) -> arrived t = false \/ departed t = true.
Proof.
  unfold allTrains_of. rewrite in_map_iff.
  intros (el & <- & Hin). apply filter_In in Hin. destruct Hin as [_ Hk].
  unfold keep in Hk. apply orb_true_iff in Hk. cbn [newData arrived departed].
  destruct Hk as [Hk|Hk]; [left | right]; [|exact Hk].
  apply negb_true_iff, Hk.
Qed.

Lemma token_until_only_spaces (s : string) :
  only_spaces s -> token_until is_space s = token_until is_whitespace s.
Proof.
  induction s as [|c s IH]; simpl; [reflexivity|].
  intros [Hc Hs]. unfold is_space at 1.
  destruct (Ascii.eqb_spec c " ") as [->|Hne]; [reflexivity|].
  destruct (is_whitespace c) eqn:Hw.
  - exfalso. apply Hne, Hc. reflexivity.
  - rewrite IH by exact Hs. reflexivity.
Qed.

(** C6 (as amended). The normalised [trainCategory] is the upstream category
    when that field is non-empty; otherwise it is the first token of the
    trimmed formatted train number delimited by the space U+0020.  That token
    is the first white-space-delimited one whenever the trimmed string has no
    white space other than U+0020. *)
Theorem trainCategory_rule (el : raw_train) :
  (categoria el <> "" -> trainCategory (newData el) = Some (categoria el))
  /\ (categoria el = "" ->
      trainCategory (newData el)
      = Some (first_space_token (compNumeroTreno el)))
  /\ (categoria el = "" -> only_spaces (trim (compNumeroTreno el)) ->
      trainCategory (newData el)
      = Some (first_whitespace_token (compNumeroTreno el))).
Proof.
  unfold newData; cbn [trainCategory].
  destruct (String.eqb_spec (categoria el) "") as [He|Hne]; cbn [negb].
  - split; [congruence|]. split; intros _.
    + apply split_space_first.
    + intros Hs. rewrite split_space_first.
      unfold first_whitespace_token.
      rewrite <- token_until_only_spaces by exact Hs. reflexivity.
  - split; [reflexivity|]. split; intros He; congruence.
Qed.

Lemma trainCategory_rule_witness :
  trainCategory (newData frecciarossa) = Some "FR".
Proof.
  apply (proj2 (proj2 (trainCategory_rule frecciarossa)));
    [reflexivity | simpl; repeat split; intros H; try discriminate H;
                   reflexivity].
Defined.

(** With a TAB after the category the token of the source runs to the end of
    the string, while the first white-space-delimited token is ["FR"]. *)
Lemma trainCategory_whitespace_token_fails :
  ~ (forall el : raw_train,
        categoria el = "" ->
        trainCategory (newData el)
        = Some (first_whitespace_token (compNumeroTreno el))).
Proof.
  intros H. specialize (H tabbed eq_refl). vm_compute in H. discriminate H.
Qed.

Lemma hhmm_all_checked :
  forallb (fun h1 => forallb (fun h2 => forallb (fun m1 =>
    forallb (fun m2 => hhmm_checked h1 h2 m1 m2) (seq 0 10))
      (seq 0 10)) (seq 0 10)) (seq 0 10) = true.
Proof. vm_compute. reflexivity. Qed.

Lemma jsnum_eqb_eq (a b : jsnum) : jsnum_eqb a b = true -> a = b.
Proof.
  destruct a, b; simpl; intros H; try discriminate; try reflexivity.
  apply Z.eqb_eq in H. congruence.
Qed.

(** C7. When the upstream duration is a string "HH:MM" of four decimal
    digits, the normalised [travelDuration] is hours * 60 + minutes. *)
Theorem travelDuration_hhmm (el : raw_train) (h1 h2 m1 m2 : nat) :
  (h1 < 10)%nat -> (h2 < 10)%nat -> (m1 < 10)%nat -> (m2 < 10)%nat ->
  compDurata el = hhmm h1 h2 m1 m2 ->
  travelDuration (newData el)
  = Num (Z.of_nat (10 * h1 + h2) * 60 + Z.of_nat (10 * m1 + m2)).
Proof.
  intros H1 H2 H3 H4 Hd.
  change (travelDuration (newData el)) with (minutes_of (compDurata el)).
  rewrite Hd.
  replace (Z.of_nat (10 * h1 + h2) * 60 + Z.of_nat (10 * m1 + m2))
    with (hhmm_minutes h1 h2 m1 m2) by (unfold hhmm_minutes; lia).
  apply jsnum_eqb_eq.
  pose proof hhmm_all_checked as Hall.
  rewrite forallb_forall in Hall.
  specialize (Hall h1 (proj2 (in_seq 10 0 h1) (conj (Nat.le_0_l _) H1))).
  rewrite forallb_forall in Hall.
  specialize (Hall h2 (proj2 (in_seq 10 0 h2) (conj (Nat.le_0_l _) H2))).
  rewrite forallb_forall in Hall.
  specialize (Hall m1 (proj2 (in_seq 10 0 m1) (conj (Nat.le_0_l _) H3))).
  rewrite forallb_forall in Hall.
  exact (Hall m2 (proj2 (in_seq 10 0 m2) (conj (Nat.le_0_l _) H4))).
Qed.

Lemma travelDuration_hhmm_witness :
  travelDuration (newData frecciarossa) = Num 135.
Proof.
  apply (travelDuration_hhmm frecciarossa 0 2 1 5); try lia. reflexivity.
Defined.

(* ================================================================== *)
(** ** Deduplication *)
(* ================================================================== *)

Lemma train_key_pair (t u : Train) :
  train_key t = train_key u <-> train_pair t = train_pair u.
Proof.
  unfold train_key, train_pair. split.
  - intros H. apply number_key_inj in H. destruct H as [-> ->]. reflexivity.
  - intros [= -> ->]. reflexivity.
Qed.

Lemma segment_key_pair (el el' : raw_segment) :
  segment_key el = segment_key el' <-> raw_pair el = raw_pair el'.
Proof.
  unfold segment_key, raw_pair. split.
  - intros H. apply number_key_inj in H. destruct H as [-> ->]. reflexivity.
  - intros [= -> ->]. reflexivity.
Qed.

Lemma last_with_train_pair (l : list Train) (t : Train) :
  last_with train_key l t <-> last_with train_pair l t.
Proof.
  split; intros (l1 & l2 & Heq & Hl); exists l1, l2; (split; [exact Heq|]);
    intros u Hu Hk; apply (Hl u Hu); apply train_key_pair; exact Hk.
Qed.

Lemma NoDup_map_factor {A B C : Type} (f : A -> B) (g : B -> C) (h : A -> C)
  (l : list A) :
  (forall x, h x = g (f x)) -> NoDup (map h l) -> NoDup (map f l).
Proof.
  intros Hh Hnd. apply (NoDup_map_inv g). rewrite map_map.
  rewrite (map_ext _ h) by (intros; symmetry; apply Hh). exact Hnd.
Qed.

(** The collapse by the pair (trainNumber, regionId), on any list of
    normalised trains: no two trains of the output share the pair; a
    train is in the output exactly when it is the last one of the input with
    its pair, so that of the records sharing a pair one survives, the latest;
    every pair of the input stays represented, and two trains with the same
    number in different regions are represented by two different records.
    For an input of two trains: both are returned when they have the same
    number and different regions, only the second when they share the
    pair. *)
Lemma noDuplicates_by_number_and_region (allTrains : list Train) :
  NoDup (map train_pair (noDuplicates allTrains))
  /\ (forall t, In t (noDuplicates allTrains)
                <-> last_with train_pair allTrains t)
  /\ (forall t, In t allTrains ->
        exists t', In t' (noDuplicates allTrains)
                   /\ train_pair t' = train_pair t)
  /\ (forall t1 t2, In t1 allTrains -> In t2 allTrains ->
        trainNumber t1 = trainNumber t2 -> regionId t1 <> regionId t2 ->
        exists o1 o2,
          In o1 (noDuplicates allTrains) /\ In o2 (noDuplicates allTrains)
          /\ train_pair o1 = train_pair t1 /\ train_pair o2 = train_pair t2
          /\ o1 <> o2)
  /\ (forall t1 t2, trainNumber t1 = trainNumber t2 ->
        regionId t1 <> regionId t2 -> noDuplicates [t1; t2] = [t1; t2])
  /\ (forall t1 t2, train_pair t1 = train_pair t2 ->
        noDuplicates [t1; t2] = [t2]).
Proof.
  change noDuplicates with (dedup train_key).
  assert (Hcov : forall t, In t allTrains ->
            exists t', In t' (dedup train_key allTrains)
                       /\ train_pair t' = train_pair t).
  { intros t Hin. destruct (dedup_covers train_key allTrains t Hin)
      as (t' & Hin' & Hk).
    exists t'. split; [exact Hin' | apply train_key_pair, Hk]. }
  repeat split.
  - apply (NoDup_map_factor train_pair
             (fun p => (string_of_number (fst p) ++ "-"
                        ++ string_of_number (snd p))%string) train_key).
    + intros t. reflexivity.
    + apply dedup_NoDup.
  - intros Hin. apply last_with_train_pair, dedup_In, Hin.
  - intros Hlast. apply dedup_In, last_with_train_pair, Hlast.
  - exact Hcov.
  - intros t1 t2 Hin1 Hin2 Hnum Hreg.
    destruct (Hcov t1 Hin1) as (o1 & Ho1 & Hp1).
    destruct (Hcov t2 Hin2) as (o2 & Ho2 & Hp2).
    exists o1, o2. repeat split; try assumption.
    intros ->. rewrite Hp1 in Hp2. injection Hp2 as _ Hr. contradiction.
  - intros t1 t2 Hnum Hreg. apply dedup_pair_distinct.
    intros Hk. apply train_key_pair in Hk. injection Hk as _ Hr.
    contradiction.
  - intros t1 t2 Hp. apply dedup_pair_same, train_key_pair, Hp.
Qed.

(** C3. The Train Aggregator deduplicates the normalised trains by the pair
    (trainNumber, regionId).  When every per-segment request resolves,
    [getAllTrains] returns a sequence of trains in which no two trains share
    the pair; a train is in it exactly when it is the last of the normalised
    trains with its pair, so that of the records sharing a pair one
    survives, the latest; every pair of the normalised trains stays
    represented, and two trains with the same number in different regions
    are represented by two different records.  When the normalised trains
    are two: both are returned when they have the same number and different
    regions, only the second when they share the pair. *)
Theorem getAllTrains_deduplicates (gw : gateway)
  (responses : list (response (list raw_tratta))) :
  Promise_all (infoTratte gw (getAllSegments gw true false)) = Ok responses ->
  exists trains,
    getAllTrains gw = Value trains
    /\ NoDup (map train_pair trains)
    /\ (forall t, In t trains
                  <-> last_with train_pair (allTrains_of responses) t)
    /\ (forall t, In t (allTrains_of responses) ->
          exists t', In t' trains /\ train_pair t' = train_pair t)
    /\ (forall t1 t2,
          In t1 (allTrains_of responses) -> In t2 (allTrains_of responses) ->
          trainNumber t1 = trainNumber t2 -> regionId t1 <> regionId t2 ->
          exists o1 o2,
            In o1 trains /\ In o2 trains
            /\ train_pair o1 = train_pair t1 /\ train_pair o2 = train_pair t2
            /\ o1 <> o2)
    /\ (forall t1 t2,
          allTrains_of responses = [t1; t2] ->
          trainNumber t1 = trainNumber t2 -> regionId t1 <> regionId t2 ->
          trains = [t1; t2])
    /\ (forall t1 t2,
          allTrains_of responses = [t1; t2] ->
          train_pair t1 = train_pair t2 -> trains = [t2]).
Proof.
  intros Hall. unfold getAllTrains, getAllTrains_try. rewrite Hall.
  cbn [bind]. exists (noDuplicates (allTrains_of responses)).
  split; [reflexivity|].
  destruct (noDuplicates_by_number_and_region (allTrains_of responses))
    as (Hnd & Hlast & Hcov & Hboth & Hdistinct & Hsame).
  split; [exact Hnd|]. split; [exact Hlast|]. split; [exact Hcov|].
  split; [exact Hboth|]. split.
  - intros t1 t2 -> Hnum Hreg. apply Hdistinct; assumption.
  - intros t1 t2 -> Hpair. apply Hsame, Hpair.
Qed.

Lemma getAllTrains_deduplicates_witness :
  exists trains,
    getAllTrains gw_up = Value trains
    /\ NoDup (map train_pair trains)
    /\ In (newData (with_region 3 9 frecciarossa)) trains
    /\ In (newData (with_region 7 0 frecciarossa)) trains
    /\ List.length trains = 2%nat.
Proof.
  destruct (getAllTrains_deduplicates gw_up
              [ {| status := 200; statusText := "OK";
                   data := [ {| treni := [frecciarossa;
                                          with_region 7 0 frecciarossa] |} ] |};
                {| status := 200; statusText := "OK";
                   data := [ {| treni := [with_region 3 9 frecciarossa;
                                          with_flags true true frecciarossa] |} ] |} ]
              eq_refl)
    as (trains & Hv & Hnd & Hlast & _).
  exists trains. split; [exact Hv|]. split; [exact Hnd|]. split; [|split].
  - apply Hlast.
    exists [newData frecciarossa; newData (with_region 7 0 frecciarossa)], [].
    split; [reflexivity | intros u []].
  - apply Hlast.
    exists [newData frecciarossa], [newData (with_region 3 9 frecciarossa)].
    split; [reflexivity|]. intros u [<-|[]]. discriminate.
  - injection Hv as <-. reflexivity.
Defined.

Lemma map_segment_pair (l : list raw_segment) :
  map segment_pair (map to_mapSegment l) = map raw_pair l.
Proof.
  rewrite map_map. apply map_ext. intros el. reflexivity.
Qed.

Lemma unique_lines_NoDup (l : list raw_segment) :
  NoDup (map raw_pair (unique_lines l)).
Proof.
  change unique_lines with (dedup segment_key).
  apply (NoDup_map_factor raw_pair
           (fun p => (string_of_number (fst p) ++ "-"
                      ++ string_of_number (snd p))%string) segment_key).
  - intros el. reflexivity.
  - apply dedup_NoDup.
Qed.

(** C4. With [unique = true] the output of [getAllSegments] never holds two
    records with the same (segmentIdAB, segmentIdBA); when the request
    succeeds, every pair present in the lines being collapsed occurs exactly
    once in the output, and every record of the output comes from one of
    those lines. *)
Theorem getAllSegments_unique (gw : gateway) (busy : bool) :
  NoDup (map segment_pair (getAllSegments gw true busy))
  /\ (forall res el,
        elencoTratte gw = Resolved res -> status res = 200 ->
        In el (lines_of busy res) ->
        count_occ pair_eq_dec
          (map segment_pair (getAllSegments gw true busy)) (raw_pair el)
        = 1%nat)
  /\ (forall s, In s (getAllSegments gw true busy) ->
        exists res el,
          elencoTratte gw = Resolved res /\ In el (lines_of busy res)
          /\ s = to_mapSegment el).
Proof.
  unfold getAllSegments, getAllSegments_try.
  destruct (elencoTratte gw) as [err|res]; simpl.
  - split; [constructor|]. split; [discriminate | intros s []].
  - destruct (Z.eqb_spec (status res) 200) as [Hs|Hs]; simpl.
    + fold (lines_of busy res). rewrite map_segment_pair.
      pose proof (unique_lines_NoDup (lines_of busy res)) as Hnd.
      split; [exact Hnd|]. split.
      * intros res' el [= <-] _ Hin.
        apply (proj1 (NoDup_count_occ' pair_eq_dec _) Hnd).
        destruct (dedup_covers segment_key _ el Hin) as (el' & Hin' & Hk).
        apply segment_key_pair in Hk. rewrite <- Hk.
        apply in_map. exact Hin'.
      * intros s Hin. apply in_map_iff in Hin.
        destruct Hin as (el & <- & Hin).
        exists res, el. split; [reflexivity|]. split; [|reflexivity].
        apply (dedup_incl segment_key). exact Hin.
    + split; [constructor|]. split.
      * intros res' el [= <-] Hs'. contradiction.
      * intros s [].
Qed.


Lemma getAllSegments_unique_witness :
  count_occ pair_eq_dec
    (map segment_pair (getAllSegments gw_up true false)) (10, 11) = 1%nat.
Proof.
  apply (proj1 (proj2 (getAllSegments_unique gw_up false))
           {| status := 200; statusText := "OK";
              data := [ track 10 11 "S01700" "S05043" true;
                        track 10 11 "S01700" "S05043" false;
                        track 20 21 "S05043" "S08409" true ] |}
           (track 10 11 "S01700" "S05043" true)).
  - reflexivity.
  - reflexivity.
  - left. reflexivity.
Defined.

(* ================================================================== *)
(** ** getTrainInfo: the current-stop inference *)
(* ================================================================== *)

Section CurrentStop.

Variable all : list raw_fermata.

Lemma progress_stop_ok (st : raw_fermata) (i : nat) :
  (actualFermataType st = 1 -> nth_error all (i + 1) <> None) ->
  exists o, progress_stop all st i = Ok o /\ isCurrentStop o = current_at all st i.
Proof.
  intros Hnext. unfold progress_stop, isCurrentStop_of, current_at.
  destruct (Z.eqb_spec (actualFermataType st) 1) as [H1|H1].
  - specialize (Hnext H1).
    destruct (nth_error all (i + 1)) as [next|]; [|congruence].
    simpl. eexists. split; [reflexivity|]. simpl.
    apply orb_false_r.
  - simpl. eexists. split; reflexivity.
Qed.

Lemma mapi_progress_ok (l : list raw_fermata) :
  forall i,
    (forall j st, nth_error l j = Some st -> actualFermataType st = 1 ->
                  nth_error all (i + j + 1) <> None) ->
    exists out,
      mapi_exc (progress_stop all) i l = Ok out
      /\ List.length out = List.length l
      /\ forall j st, nth_error l j = Some st ->
           exists o, nth_error out j = Some o
                     /\ isCurrentStop o = current_at all st (i + j).
Proof.
  induction l as [|a l IH]; intros i Hnext.
  - exists []. split; [reflexivity|]. split; [reflexivity|].
    intros [|j] st H; discriminate H.
  - destruct (progress_stop_ok a i) as (o & Ho & Hcur).
    { intros H1. specialize (Hnext 0%nat a eq_refl H1).
      rewrite Nat.add_0_r in Hnext. exact Hnext. }
    destruct (IH (S i)) as (out & Hout & Hlen & Hnth).
    { intros j st Hj H1. specialize (Hnext (S j) st Hj H1).
      replace (S i + j + 1)%nat with (i + S j + 1)%nat by lia. exact Hnext. }
    exists (o :: out). cbn [mapi_exc]. rewrite Ho. cbn [bind].
    rewrite Hout. cbn [bind]. split; [reflexivity|].
    split; [simpl; rewrite Hlen; reflexivity|].
    intros [|j] st Hj; simpl in Hj.
    + injection Hj as <-. exists o. split; [reflexivity|].
      rewrite Nat.add_0_r. exact Hcur.
    + destruct (Hnth j st Hj) as (o' & Ho' & Hcur').
      exists o'. split; [exact Ho'|].
      replace (i + S j)%nat with (S i + j)%nat by lia. exact Hcur'.
Qed.

Lemma mapi_progress_throw (l : list raw_fermata) :
  forall i j st,
    nth_error l j = Some st -> actualFermataType st = 1 ->
    nth_error all (i + j + 1) = None ->
    exists e, mapi_exc (progress_stop all) i l = Throw e.
Proof.
  induction l as [|a l IH]; intros i [|j] st Hj H1 Hnone;
    try discriminate Hj; simpl in Hj.
  - injection Hj as ->. cbn [mapi_exc].
    unfold progress_stop, isCurrentStop_of.
    rewrite Nat.add_0_r in Hnone. rewrite H1, Hnone. simpl.
    eexists. reflexivity.
  - cbn [mapi_exc].
    destruct (progress_stop all a i) as [o|e]; cbn [bind];
      [|eexists; reflexivity].
    destruct (IH (S i) j st Hj H1) as (e & He).
    { replace (S i + j + 1)%nat with (i + S j + 1)%nat by lia. exact Hnone. }
    rewrite He. eexists. reflexivity.
Qed.

End CurrentStop.

Lemma unmarked_next_exists (stops : list raw_fermata) :
  last_stop_unmarked stops ->
  forall j st, nth_error stops j = Some st -> actualFermataType st = 1 ->
               nth_error stops (0 + j + 1) <> None.
Proof.
  intros Hlast j st Hj H1 Hnone.
  apply nth_error_None in Hnone.
  assert (Hlt : (j < List.length stops)%nat)
    by (apply nth_error_Some; congruence).
  replace j with (List.length stops - 1)%nat in Hj by lia.
  exact (Hlast st Hj H1).
Qed.

(** C2 (as amended). When the answer of the upstream is served with status
    200 and the last stop of the itinerary does not carry the marker 1,
    [getTrainInfo] returns the train information, with one stop per upstream
    stop, and [stops[i].isCurrentStop] is true exactly when the marker of
    stop [i] is 1 and the stop at index [i + 1] exists and has the marker
    0. *)
Theorem getTrainInfo_isCurrentStop (gw : gateway) (trainNumber sid : string)
  (segmentN : Z) (res : response raw_andamento) :
  andamentoTreno gw sid trainNumber = Resolved res ->
  status res = 200 ->
  last_stop_unmarked (fermate (data res)) ->
  exists info,
    getTrainInfo gw trainNumber (Some sid) segmentN = Value info
    /\ List.length (stops info) = List.length (fermate (data res))
    /\ forall i st, nth_error (fermate (data res)) i = Some st ->
         exists o, nth_error (stops info) i = Some o
           /\ (isCurrentStop o = true <->
               actualFermataType st = 1
               /\ exists next,
                    nth_error (fermate (data res)) (i + 1) = Some next
                    /\ actualFermataType next = 0).
Proof.
  intros Hres Hstatus Hlast.
  destruct (mapi_progress_ok (fermate (data res)) (fermate (data res)) 0
              (unmarked_next_exists _ Hlast)) as (out & Hout & Hlen & Hnth).
  unfold getTrainInfo, getTrainInfo_try. cbn [resolve_stationId bind].
  cbn [string_of_stationId]. rewrite Hres. cbn [await bind].
  rewrite Hstatus. cbn [Z.eqb Pos.eqb]. unfold stops_of. rewrite Hout.
  cbn [bind]. eexists. split; [reflexivity|]. cbn [stops].
  split; [exact Hlen|].
  intros i st Hi. destruct (Hnth i st Hi) as (o & Ho & Hcur).
  exists o. split; [exact Ho|]. rewrite Hcur. unfold current_at. cbn [Nat.add].
  rewrite andb_true_iff, Z.eqb_eq.
  destruct (nth_error (fermate (data res)) (i + 1)) as [next|].
  - rewrite Z.eqb_eq. split.
    + intros [H1 H0]. split; [exact H1|]. exists next. split; [reflexivity|exact H0].
    + intros [H1 (next' & [= <-] & H0)]. split; assumption.
  - split.
    + intros [_ H]. discriminate H.
    + intros [_ (next' & H & _)]. discriminate H.
Qed.

Lemma getTrainInfo_isCurrentStop_witness :
  exists info,
    getTrainInfo gw_up "3914" (Some "S07113") 0 = Value info
    /\ List.length (stops info) = 3%nat
    /\ forall i st, nth_error (fermate (progress
                       [stop_marked "ANCONA" "P" 1;
                        stop_marked "RIMINI" "F" 1;
                        stop_marked "BOLOGNA" "A" 0])) i = Some st ->
         exists o, nth_error (stops info) i = Some o
           /\ (isCurrentStop o = true <->
               actualFermataType st = 1
               /\ exists next,
                    nth_error (fermate (progress
                       [stop_marked "ANCONA" "P" 1;
                        stop_marked "RIMINI" "F" 1;
                        stop_marked "BOLOGNA" "A" 0])) (i + 1) = Some next
                    /\ actualFermataType next = 0).
Proof.
  apply (getTrainInfo_isCurrentStop gw_up "3914" "S07113" 0
           {| status := 200; statusText := "OK";
              data := progress [stop_marked "ANCONA" "P" 1;
                                stop_marked "RIMINI" "F" 1;
                                stop_marked "BOLOGNA" "A" 0] |}).
  - reflexivity.
  - reflexivity.
  - intros st H. simpl in H. injection H as <-. discriminate.
Defined.

(** A stop marked 1 and followed by a stop marked 2 is not reported as the
    current one, although the next marker differs from 1. *)
Lemma isCurrentStop_next_differs_fails :
  ~ (forall (stops_in : list raw_fermata) (i : nat) (st : raw_fermata),
        nth_error stops_in i = Some st ->
        exists out o,
          stops_of stops_in = Ok out /\ nth_error out i = Some o
          /\ (isCurrentStop o = true <->
              actualFermataType st = 1
              /\ (nth_error stops_in (i + 1) = None
                  \/ exists next, nth_error stops_in (i + 1) = Some next
                                  /\ actualFermataType next <> 1))).
Proof.
  intros H.
  destruct (H stops_1_2 0%nat (stop_marked "ANCONA" "P" 1) eq_refl)
    as (out & o & Hout & Ho & Hiff).
  vm_compute in Hout. injection Hout as <-.
  simpl in Ho. injection Ho as <-.
  assert (Hc : false = true).
  { apply Hiff. split; [reflexivity|]. right.
    exists (stop_marked "BOLOGNA" "A" 2). split; [reflexivity | discriminate]. }
  discriminate Hc.
Qed.

(** When the last stop carries the marker 1, reading the marker of the
    missing next stop raises a [TypeError]: the map is abandoned and
    [getTrainInfo] hands the error to its caller. *)
Lemma getTrainInfo_last_stop_marked (gw : gateway) (trainNumber sid : string)
  (segmentN : Z) (res : response raw_andamento) (st : raw_fermata) :
  andamentoTreno gw sid trainNumber = Resolved res ->
  status res = 200 ->
  nth_error (fermate (data res)) (List.length (fermate (data res)) - 1) = Some st ->
  actualFermataType st = 1 ->
  exists e, getTrainInfo gw trainNumber (Some sid) segmentN = Err e.
Proof.
  intros Hres Hstatus Hst H1.
  destruct (mapi_progress_throw (fermate (data res)) (fermate (data res)) 0
              (List.length (fermate (data res)) - 1) st Hst H1) as (e & He).
  { apply nth_error_None.
    assert ((List.length (fermate (data res)) - 1
             < List.length (fermate (data res)))%nat)
      by (apply nth_error_Some; congruence).
    lia. }
  unfold getTrainInfo, getTrainInfo_try. cbn [resolve_stationId bind].
  cbn [string_of_stationId]. rewrite Hres. cbn [await bind].
  rewrite Hstatus. cbn [Z.eqb Pos.eqb]. unfold stops_of. rewrite He.
  cbn [bind]. exists e. reflexivity.
Qed.

Example stops_of_last_marked :
  stops_of stops_last_marked
  = Throw (TypeError
      "Cannot read properties of undefined (reading 'actualFermataType')").
Proof. reflexivity. Qed.

(* ================================================================== *)
(** ** getTrainAutocomplete *)
(* ================================================================== *)

Lemma mapi_exc_ok {A B : Type} (f : A -> nat -> exc B) (g : A -> B)
  (l : list A) :
  forall i, (forall a j, In a l -> f a j = Ok (g a)) ->
            mapi_exc f i l = Ok (map g l).
Proof.
  induction l as [|a l IH]; intros i Hf; [reflexivity|].
  cbn [mapi_exc map]. rewrite (Hf a i (or_introl eq_refl)). cbn [bind].
  rewrite (IH (S i)); [reflexivity|].
  intros b j Hb. apply Hf. right. exact Hb.
Qed.

Lemma component_first_some (sep s : string) :
  exists a, component sep 0 s = Some a.
Proof.
  cbn [component]. destruct (find_sep sep s) as [[a b]|]; eexists; reflexivity.
Qed.

(** On a line with a second pipe-delimited field, the callback of the source
    builds the match the specification describes. *)
Lemma parse_line_match (el : string) :
  component "|" 1 el <> None -> parse_line el = Ok (match_of_line el).
Proof.
  intros Hpipe. unfold parse_line, match_of_line.
  rewrite !(nth_split_component "|") by discriminate.
  destruct (component "|" 1 el) as [text1|]; [|congruence].
  destruct (component_first_some "|" el) as (text0 & ->).
  cbn [read_of bind and_then].
  rewrite !(nth_split_component "-") by discriminate.
  rewrite (nth_split_component " - ") by discriminate.
  reflexivity.
Qed.

(** C8. For an autocomplete answer served with status 200 in which every
    non-empty line has a second pipe-delimited field, [getTrainAutocomplete]
    returns, for the non-empty lines of the text split at newlines and in
    their order, the match whose [trainNumber] is the first hyphen-delimited
    component of field 1, whose [stationA] is the token after the first
    " - " of field 0 and whose [stationIdA] is the second hyphen-delimited
    component of field 1. *)
Theorem getTrainAutocomplete_parses (gw : gateway) (trainNumber : string)
  (res : response string) :
  cercaNumeroTrenoTrenoAutocomplete gw trainNumber = Resolved res ->
  status res = 200 ->
  (forall el, In el (nonempty_lines (data res)) -> component "|" 1 el <> None) ->
  getTrainAutocomplete gw trainNumber
  = Value (map match_of_line (nonempty_lines (data res))).
Proof.
  intros Hres Hstatus Hpipe.
  unfold getTrainAutocomplete, getTrainAutocomplete_try.
  rewrite Hres. cbn [await bind]. rewrite Hstatus. cbn [Z.eqb Pos.eqb].
  fold (nonempty_lines (data res)).
  rewrite (mapi_exc_ok _ match_of_line).
  - cbn [bind]. destruct (map match_of_line (nonempty_lines (data res)));
      reflexivity.
  - intros el _ Hin. apply parse_line_match, Hpipe, Hin.
Qed.

Lemma getTrainAutocomplete_parses_witness :
  getTrainAutocomplete gw_up "3914"
  = Value [ {| m_trainNumber := Some "3914";
               m_stationA := Some "ANCONA";
               m_stationIdA := Some "S07113" |} ].
Proof.
  apply (getTrainAutocomplete_parses gw_up "3914"
           {| status := 200; statusText := "OK";
              data := (autocomplete_line ++ newline)%string |}).
  - reflexivity.
  - reflexivity.
  - intros el [<-|[]]. discriminate.
Defined.

(** A non-empty line without a pipe has no field 1: the callback raises a
    [TypeError] and the function hands it to the caller. *)
Example getTrainAutocomplete_line_without_pipe :
  parse_line "3914 - ANCONA - 03/11/25"
  = Throw (TypeError "Cannot read properties of undefined (reading 'split')").
Proof. reflexivity. Qed.

(* ================================================================== *)
(** ** Failures *)
(* ================================================================== *)



Lemma getAllSegments_failed (gw : gateway) (unique busy : bool) :
  failed (elencoTratte gw) -> getAllSegments gw unique busy = [].
Proof.
  intros Hf. unfold getAllSegments, getAllSegments_try.
  destruct (elencoTratte gw) as [err|res]; simpl in *; [reflexivity|].
  destruct (Z.eqb_spec (status res) 200); [contradiction | reflexivity].
Qed.

Lemma getAllTrains_catalog_failed (gw : gateway) :
  failed (elencoTratte gw) -> getAllTrains gw = Value [].
Proof.
  intros Hf. unfold getAllTrains, getAllTrains_try.
  rewrite (getAllSegments_failed gw true false Hf). reflexivity.
Qed.




(** [getAllTrains] does not look at the status of the per-segment answers:
    an answer served with status 203 is processed like one served with 200. *)
Example getAllTrains_status_not_checked :
  getAllTrains gw_details_203 = Value [newData frecciarossa].
Proof. reflexivity. Qed.

(* ================================================================== *)
(** ** getAllTrains when the catalogue of segments fails *)
(* ================================================================== *)

Lemma Promise_all_quiet (gw : gateway) (segments : list mapSegment) :
  (forall ab ba, exists r, dettagliTratta gw ab ba = Resolved r /\ no_trains r) ->
  exists responses,
    Promise_all (infoTratte gw segments) = Ok responses
    /\ Forall no_trains responses.
Proof.
  intros Hq. induction segments as [|s segments (rs & Hrs & Hall)].
  - exists []. split; [reflexivity | constructor].
  - destruct (Hq (segmentIdAB s) (segmentIdBA s)) as (r & Hr & Hnt).
    exists (r :: rs). cbn [infoTratte map Promise_all].
    rewrite Hr. unfold infoTratte in Hrs. rewrite Hrs.
    split; [reflexivity | constructor; assumption].
Qed.

Lemma concat_treni_quiet (l : list raw_tratta) :
  (forall tr, In tr l -> treni tr = []) -> List.concat (map treni l) = [].
Proof.
  induction l as [|tr l IH]; intros H; [reflexivity|].
  cbn [map List.concat]. rewrite (H tr (or_introl eq_refl)).
  apply IH. intros tr' Hin. apply H. right. exact Hin.
Qed.

Lemma allTrains_of_quiet (responses : list (response (list raw_tratta))) :
  Forall no_trains responses -> allTrains_of responses = [].
Proof.
  intros Hall. unfold allTrains_of.
  replace (List.concat
             (map (fun el => List.concat (map treni (data el))) responses))
    with (@nil raw_train); [reflexivity|].
  induction Hall as [|r rs Hr _ IH]; [reflexivity|].
  cbn [map List.concat]. rewrite <- IH.
  rewrite (concat_treni_quiet _ Hr). reflexivity.
Qed.

Lemma getAllTrains_quiet (gw : gateway) :
  quiet_network gw -> getAllTrains gw = Value [].
Proof.
  intros [_ Hq]. unfold getAllTrains, getAllTrains_try.
  destruct (Promise_all_quiet gw (getAllSegments gw true false) Hq)
    as (rs & -> & Hall).
  cbn [bind]. rewrite (allTrains_of_quiet _ Hall). reflexivity.
Qed.

(** C9. When the request for the catalogue of segments fails,
    [getAllSegments] returns the empty sequence, [getAllTrains] issues no
    per-segment request and returns the empty sequence, not an error: the
    very value it returns on a network that serves the catalogue and on
    which no segment carries a train. *)
Theorem getAllTrains_catalog_failure (gw : gateway) :
  failed (elencoTratte gw) ->
  getAllSegments gw true false = []
  /\ infoTratte gw (getAllSegments gw true false) = []
  /\ getAllTrains gw = Value []
  /\ forall gw', quiet_network gw' -> getAllTrains gw' = getAllTrains gw.
Proof.
  intros Hf.
  assert (Hseg : getAllSegments gw true false = []).
  { apply getAllSegments_failed, Hf. }
  assert (Hall : getAllTrains gw = Value [])
    by (apply getAllTrains_catalog_failed, Hf).
  split; [exact Hseg|]. split; [rewrite Hseg; reflexivity|].
  split; [exact Hall|].
  intros gw' Hq. rewrite Hall. apply getAllTrains_quiet, Hq.
Qed.

Lemma getAllTrains_catalog_failure_witness :
  getAllSegments gw_catalog_down true false = []
  /\ infoTratte gw_catalog_down (getAllSegments gw_catalog_down true false) = []
  /\ getAllTrains gw_catalog_down = Value []
  /\ getAllTrains gw_quiet = getAllTrains gw_catalog_down.
Proof.
  destruct (getAllTrains_catalog_failure gw_catalog_down I)
    as (H1 & H2 & H3 & H4).
  split; [exact H1|]. split; [exact H2|]. split; [exact H3|].
  apply H4. split.
  - eexists. split; reflexivity.
  - intros ab ba. eexists. split; [reflexivity|].
    intros tr [<-|[]]. reflexivity.
Defined.

(* ================================================================== *)
(** ** getTrainStopsInfo without a station id *)
(* ================================================================== *)

(** C10. Called without [stationIdA], [getTrainStopsInfo] returns the empty
    sequence whenever the value handed back by [getTrainAutocomplete] has
    no entry at index [segmentN]; so it does when the autocomplete found no
    match and when its request was rejected. *)
Theorem getTrainStopsInfo_no_entry (gw : gateway) (trainNumber : string)
  (segmentN : Z) :
  (entry_at (getTrainAutocomplete gw trainNumber) segmentN = None ->
   getTrainStopsInfo gw trainNumber None segmentN = [])
  /\ (getTrainAutocomplete gw trainNumber = Value [] ->
      getTrainStopsInfo gw trainNumber None segmentN = [])
  /\ (forall message,
        cercaNumeroTrenoTrenoAutocomplete gw trainNumber
        = Rejected (AxiosError message) ->
        getTrainStopsInfo gw trainNumber None segmentN = []).
Proof.
  assert (Hmain : entry_at (getTrainAutocomplete gw trainNumber) segmentN = None ->
                  getTrainStopsInfo gw trainNumber None segmentN = []).
  { intros Hnone. unfold getTrainStopsInfo, getTrainStopsInfo_try.
    cbn [resolve_stationId]. rewrite Hnone. reflexivity. }
  split; [exact Hmain|]. split.
  - intros Hempty. apply Hmain. rewrite Hempty. cbn [entry_at].
    unfold at_index. destruct (segmentN <? 0); [reflexivity|].
    destruct (Z.to_nat segmentN); reflexivity.
  - intros message Hrej. apply Hmain.
    unfold getTrainAutocomplete, getTrainAutocomplete_try. rewrite Hrej.
    reflexivity.
Qed.

Lemma getTrainStopsInfo_no_entry_witness :
  getTrainStopsInfo gw_no_match "3914" None 0 = []
  /\ getTrainStopsInfo gw_down "3914" None 0 = []
  /\ getTrainStopsInfo gw_up "3914" None 1 = [].
Proof.
  split; [|split].
  - apply (proj1 (proj2 (getTrainStopsInfo_no_entry gw_no_match "3914" 0))).
    reflexivity.
  - apply (proj2 (proj2 (getTrainStopsInfo_no_entry gw_down "3914" 0))
             "Network Error").
    reflexivity.
  - apply (proj1 (getTrainStopsInfo_no_entry gw_up "3914" 1)).
    reflexivity.
Defined.

(** X23. When the autocomplete answer is served with a status other than 200
    the value handed back is the string ['code not 200']; an index below its
    length finds a code unit there, whose [stationIdA] is [undefined], and
    the stops are requested for the station id "undefined". *)
Lemma getTrainStopsInfo_code_not_200 (gw : gateway) (trainNumber : string)
  (segmentN : Z) (res : response string) :
  cercaNumeroTrenoTrenoAutocomplete gw trainNumber = Resolved res ->
  status res <> 200 ->
  0 <= segmentN < 12 ->
  getTrainStopsInfo gw trainNumber None segmentN
  = getTrainStopsInfo gw trainNumber (Some "undefined") segmentN.
Proof.
  intros Hres Hstatus Hn.
  unfold getTrainStopsInfo, getTrainStopsInfo_try. cbn [resolve_stationId].
  unfold getTrainAutocomplete, getTrainAutocomplete_try. rewrite Hres.
  cbn [await bind].
  destruct (Z.eqb_spec (status res) 200); [contradiction|].
  cbn [entry_at]. destruct (Z.ltb_spec segmentN 0); [lia|].
  assert (Hnat : (Z.to_nat segmentN < 12)%nat) by lia.
  destruct (Z.to_nat segmentN) as [|[|[|[|[|[|[|[|[|[|[|[|k]]]]]]]]]]]];
    try reflexivity.
  lia.
Qed.

(* ================================================================== *)
(** ** Order and size of a collapsed list *)
(* ================================================================== *)

Section MapOrder.

Context {A : Type} (key : A -> string).

Lemma set_keys (k : string) (v : A) (m : Map A) :
  map fst (set k v m)
  = if in_dec string_dec k (map fst m) then map fst m else map fst m ++ [k].
Proof.
  induction m as [|[k0 v0] m IH]; [reflexivity|].
  cbn [set map fst].
  destruct (String.eqb_spec k0 k) as [->|Hne].
  - destruct (in_dec string_dec k (k :: map fst m)) as [_|Hn];
      [reflexivity | exfalso; apply Hn; left; reflexivity].
  - cbn [map fst]. rewrite IH.
    destruct (in_dec string_dec k (map fst m)) as [Hin|Hn];
      destruct (in_dec string_dec k (k0 :: map fst m)) as [Hin'|Hn'];
      try reflexivity.
    + exfalso. apply Hn'. right. exact Hin.
    + exfalso. destruct Hin' as [Heq|Hin']; [congruence | contradiction].
Qed.

Lemma set_new (k : string) (v : A) (m : Map A) :
  ~ In k (map fst m) -> set k v m = m ++ [(k, v)].
Proof.
  induction m as [|[k0 v0] m IH]; intros Hn; [reflexivity|].
  cbn [set]. destruct (String.eqb_spec k0 k) as [->|Hne].
  - exfalso. apply Hn. left. reflexivity.
  - rewrite IH; [reflexivity|]. intros Hin. apply Hn. right. exact Hin.
Qed.

Lemma fresh_seen_ext {K : Type} (dec : forall x y : K, {x = y} + {x <> y})
  (l : list K) :
  forall seen seen', (forall x, In x seen <-> In x seen') ->
                     fresh dec seen l = fresh dec seen' l.
Proof.
  induction l as [|x l IH]; intros seen seen' Hext; [reflexivity|].
  cbn [fresh].
  destruct (in_dec dec x seen) as [Hin|Hn];
    destruct (in_dec dec x seen') as [Hin'|Hn'].
  - apply IH, Hext.
  - exfalso. apply Hn', Hext, Hin.
  - exfalso. apply Hn, Hext, Hin'.
  - f_equal. apply IH. intros y. simpl. rewrite Hext. reflexivity.
Qed.

(** The keys of a map after a run of insertions: the keys it had, then the
    new ones in the order of their first insertion. *)
Lemma fold_set_keys (es : list (string * A)) :
  forall m,
    map fst (fold_left (fun m kv => set (fst kv) (snd kv) m) es m)
    = map fst m ++ fresh string_dec (map fst m) (map fst es).
Proof.
  induction es as [|[k v] es IH]; intros m.
  - simpl. rewrite app_nil_r. reflexivity.
  - cbn [fold_left map fst snd fresh]. rewrite IH, set_keys.
    destruct (in_dec string_dec k (map fst m)) as [Hin|Hn]; [reflexivity|].
    rewrite <- app_assoc. cbn [app]. do 2 f_equal.
    apply fresh_seen_ext. intros x. rewrite in_app_iff. simpl. tauto.
Qed.

Lemma dedup_keys_order (l : list A) :
  map key (dedup key l) = fresh string_dec [] (map key l).
Proof.
  unfold dedup.
  rewrite (keyed_values key).
  - unfold Map_of. rewrite fold_set_keys. cbn [map app].
    rewrite map_map. reflexivity.
  - rewrite Map_of_built. apply built_keyed.
Qed.

Lemma fold_set_new (es : list (string * A)) :
  forall m,
    NoDup (map fst es) ->
    (forall k, In k (map fst es) -> ~ In k (map fst m)) ->
    fold_left (fun m kv => set (fst kv) (snd kv) m) es m = m ++ es.
Proof.
  induction es as [|[k v] es IH]; intros m Hnd Hdisj.
  - simpl. rewrite app_nil_r. reflexivity.
  - cbn [fold_left fst snd]. cbn [map fst] in Hnd, Hdisj.
    inversion Hnd as [|? ? Hk Hnd']; subst.
    rewrite set_new by (apply Hdisj; left; reflexivity).
    rewrite IH.
    + rewrite <- app_assoc. reflexivity.
    + exact Hnd'.
    + intros k' Hin. rewrite map_app, in_app_iff. cbn [map fst In].
      intros [H|[H|[]]].
      * apply (Hdisj k'); [right; exact Hin | exact H].
      * subst k'. contradiction.
Qed.

(** A list without repeated keys goes through the map unchanged. *)
Lemma dedup_NoDup_id (l : list A) :
  NoDup (map key l) -> dedup key l = l.
Proof.
  intros Hnd. unfold dedup, Map_of, values.
  rewrite fold_set_new.
  - cbn [app]. rewrite map_map. cbn [snd]. apply map_id.
  - rewrite map_map. exact Hnd.
  - intros k _ [].
Qed.

Lemma dedup_length (l : list A) :
  (List.length (dedup key l) <= List.length l)%nat.
Proof.
  rewrite <- (length_map key (dedup key l)), <- (length_map key l).
  apply NoDup_incl_length; [apply dedup_NoDup|].
  intros k Hin. apply in_map_iff in Hin. destruct Hin as (t & <- & Hin).
  apply in_map. apply (dedup_incl key), Hin.
Qed.

End MapOrder.

Lemma pair_key_inj (p q : Z * Z) : pair_key p = pair_key q -> p = q.
Proof.
  destruct p as [a b], q as [c d]. unfold pair_key. cbn [fst snd].
  intros H. apply number_key_inj in H. destruct H as [-> ->]. reflexivity.
Qed.

Lemma fresh_map_inj {K L : Type} (decK : forall x y : K, {x = y} + {x <> y})
  (decL : forall x y : L, {x = y} + {x <> y}) (f : K -> L) (l : list K) :
  (forall x y, f x = f y -> x = y) ->
  forall seen, map f (fresh decK seen l) = fresh decL (map f seen) (map f l).
Proof.
  intros Hinj. induction l as [|x l IH]; intros seen; [reflexivity|].
  cbn [fresh map].
  destruct (in_dec decK x seen) as [Hin|Hn];
    destruct (in_dec decL (f x) (map f seen)) as [Hin'|Hn'].
  - apply IH.
  - exfalso. apply Hn'. apply in_map, Hin.
  - exfalso. apply Hn. apply in_map_iff in Hin'.
    destruct Hin' as (y & Hy & Hin'). apply Hinj in Hy. subst y. exact Hin'.
  - cbn [map]. f_equal. apply (IH (x :: seen)).
Qed.

Lemma map_injective {K L : Type} (f : K -> L) :
  (forall x y, f x = f y -> x = y) ->
  forall l l', map f l = map f l' -> l = l'.
Proof.
  intros Hinj. induction l as [|x l IH]; intros [|y l'] H;
    try discriminate; [reflexivity|].
  injection H as Hh Ht. f_equal; [apply Hinj, Hh | apply IH, Ht].
Qed.

(** The pairs of a list collapsed under their printed key: each pair once,
    in the order of first occurrence. *)
Lemma dedup_pairs_order {A : Type} (key : A -> string) (pair : A -> Z * Z)
  (l : list A) :
  (forall x, key x = pair_key (pair x)) ->
  map pair (dedup key l) = first_occurrences (map pair l).
Proof.
  intros Hkey. apply (map_injective pair_key pair_key_inj).
  unfold first_occurrences.
  rewrite (fresh_map_inj pair_eq_dec string_dec pair_key _ pair_key_inj).
  rewrite !map_map. cbn [map].
  rewrite <- (map_ext key (fun x => pair_key (pair x)) Hkey).
  rewrite <- (map_ext key (fun x => pair_key (pair x)) Hkey).
  apply dedup_keys_order.
Qed.

(* ================================================================== *)
(** ** getAllStations and getAllSegments: what the result tells *)
(* ================================================================== *)

Lemma getAllSegments_answered (gw : gateway) (unique busy : bool)
  (res : response (list raw_segment)) :
  elencoTratte gw = Resolved res -> status res = 200 ->
  getAllSegments gw unique busy
  = map to_mapSegment
      (if unique then unique_lines (lines_of busy res) else lines_of busy res).
Proof.
  intros Hres Hstatus. unfold getAllSegments, getAllSegments_try.
  rewrite Hres. cbn [await bind]. rewrite Hstatus. reflexivity.
Qed.

Lemma getAllSegments_inv (gw : gateway) (unique busy : bool) (s : mapSegment) :
  In s (getAllSegments gw unique busy) ->
  exists res el,
    elencoTratte gw = Resolved res /\ status res = 200
    /\ In el (lines_of busy res) /\ s = to_mapSegment el.
Proof.
  unfold getAllSegments, getAllSegments_try.
  destruct (elencoTratte gw) as [err|res]; cbn [await bind]; [intros []|].
  destruct (Z.eqb_spec (status res) 200) as [Hs|Hs]; [|intros []].
  fold (lines_of busy res). intros Hin. apply in_map_iff in Hin.
  destruct Hin as (el & <- & Hin).
  exists res, el. split; [reflexivity|]. split; [exact Hs|].
  split; [|reflexivity].
  destruct unique; [apply (dedup_incl segment_key), Hin | exact Hin].
Qed.

Lemma last_with_raw_pair (l : list raw_segment) (el : raw_segment) :
  last_with segment_key l el <-> last_with raw_pair l el.
Proof.
  split; intros (l1 & l2 & Heq & Hl); exists l1, l2; (split; [exact Heq|]);
    intros u Hu Hk; apply (Hl u Hu); apply segment_key_pair; exact Hk.
Qed.

Lemma NoDup_map_filter {K L : Type} (f : K -> L) (p : K -> bool) (l : list K) :
  NoDup (map f l) -> NoDup (map f (filter p l)).
Proof.
  induction l as [|x l IH]; cbn [map filter]; intros Hnd; [constructor|].
  inversion Hnd as [|? ? Hx Hnd']; subst.
  destruct (p x); [|apply IH, Hnd'].
  cbn [map]. constructor; [|apply IH, Hnd'].
  intros Hin. apply Hx. apply in_map_iff in Hin.
  destruct Hin as (y & Hy & Hin). apply filter_In in Hin.
  rewrite <- Hy. apply in_map, Hin.
Qed.

(** X1. With [busy = true] every segment returned by [getAllSegments] is
    busy, whatever [unique] is. *)
Theorem getAllSegments_busy_only (gw : gateway) (unique : bool) (s : mapSegment) :
  In s (getAllSegments gw unique true) -> busy s = true.
Proof.
  intros Hin. apply getAllSegments_inv in Hin.
  destruct Hin as (res & el & _ & _ & Hin & ->).
  unfold lines_of in Hin. apply filter_In in Hin. apply Hin.
Qed.

Lemma getAllSegments_busy_only_witness :
  busy (to_mapSegment (track 10 11 "S01700" "S05043" true)) = true.
Proof.
  apply (getAllSegments_busy_only gw_up true). left. reflexivity.
Defined.

(** X2. With [unique] and [busy] both true the busy filter runs before the
    collapse: every pair that has a busy line in the answer is represented
    in the output, by a busy segment, even when the last line of that pair
    is not busy. *)
Theorem getAllSegments_busy_before_unique (gw : gateway)
  (res : response (list raw_segment)) (el : raw_segment) :
  elencoTratte gw = Resolved res -> status res = 200 ->
  In el (data res) -> occupata el = true ->
  exists s, In s (getAllSegments gw true true)
            /\ segment_pair s = raw_pair el /\ busy s = true.
Proof.
  intros Hres Hstatus Hin Hbusy.
  rewrite (getAllSegments_answered gw true true res Hres Hstatus).
  assert (Hline : In el (lines_of true res))
    by (apply filter_In; split; assumption).
  destruct (dedup_covers segment_key _ el Hline) as (el' & Hin' & Hk).
  exists (to_mapSegment el'). split; [apply in_map, Hin'|]. split.
  - apply segment_key_pair in Hk. exact Hk.
  - apply (dedup_incl segment_key) in Hin'. apply filter_In in Hin'.
    apply Hin'.
Qed.

Lemma getAllSegments_busy_before_unique_witness :
  exists s, In s (getAllSegments gw_up true true)
            /\ segment_pair s = (10, 11) /\ busy s = true.
Proof.
  apply (getAllSegments_busy_before_unique gw_up
           {| status := 200; statusText := "OK";
              data := [ track 10 11 "S01700" "S05043" true;
                        track 10 11 "S01700" "S05043" false;
                        track 20 21 "S05043" "S08409" true ] |}
           (track 10 11 "S01700" "S05043" true)).
  - reflexivity.
  - reflexivity.
  - left. reflexivity.
  - reflexivity.
Defined.

(** X3. With [unique = true] and a request that succeeds, the output lists
    each (segmentIdAB, segmentIdBA) pair once in the order in which the
    pairs first occur in the lines, and the segment kept for a pair is made
    from the last line that has it. *)
Theorem getAllSegments_unique_order (gw : gateway) (busy : bool)
  (res : response (list raw_segment)) :
  elencoTratte gw = Resolved res -> status res = 200 ->
  map segment_pair (getAllSegments gw true busy)
  = first_occurrences (map raw_pair (lines_of busy res))
  /\ forall s, In s (getAllSegments gw true busy) <->
               exists el, last_with raw_pair (lines_of busy res) el
                          /\ s = to_mapSegment el.
Proof.
  intros Hres Hstatus.
  rewrite (getAllSegments_answered gw true busy res Hres Hstatus).
  split.
  - rewrite map_segment_pair. apply (dedup_pairs_order segment_key raw_pair).
    intros el. reflexivity.
  - intros s. rewrite in_map_iff. split.
    + intros (el & <- & Hin). exists el. split; [|reflexivity].
      apply last_with_raw_pair, (dedup_In segment_key), Hin.
    + intros (el & Hlast & ->). exists el. split; [reflexivity|].
      apply (dedup_In segment_key), last_with_raw_pair, Hlast.
Qed.

Lemma getAllSegments_unique_order_witness :
  map segment_pair (getAllSegments gw_up true false) = [(10, 11); (20, 21)]
  /\ In (to_mapSegment (track 10 11 "S01700" "S05043" false))
        (getAllSegments gw_up true false).
Proof.
  destruct (getAllSegments_unique_order gw_up false
              {| status := 200; statusText := "OK";
                 data := [ track 10 11 "S01700" "S05043" true;
                           track 10 11 "S01700" "S05043" false;
                           track 20 21 "S05043" "S08409" true ] |}
              eq_refl eq_refl) as [Horder Hlast].
  split; [exact Horder|].
  apply Hlast. exists (track 10 11 "S01700" "S05043" false).
  split; [|reflexivity].
  exists [track 10 11 "S01700" "S05043" true],
         [track 20 21 "S05043" "S08409" true].
  split; [reflexivity|].
  intros u [<-|[]]. discriminate.
Defined.

(** X4. When no two lines of the answer share a pair, [unique = true]
    changes nothing: the result is the one of [unique = false], for either
    value of [busy]. *)
Theorem getAllSegments_unique_noop (gw : gateway) (busy : bool) :
  (forall res, elencoTratte gw = Resolved res ->
               NoDup (map raw_pair (data res))) ->
  getAllSegments gw true busy = getAllSegments gw false busy.
Proof.
  intros Hnd. unfold getAllSegments, getAllSegments_try.
  destruct (elencoTratte gw) as [err|res] eqn:Hres; cbn [await bind];
    [reflexivity|].
  destruct (status res =? 200); [|reflexivity].
  fold (lines_of busy res). unfold unique_lines.
  change (values (Map_of (map (fun el => (segment_key el, el))
                            (lines_of busy res))))
    with (dedup segment_key (lines_of busy res)).
  rewrite dedup_NoDup_id; [reflexivity|].
  rewrite (map_ext segment_key (fun el => pair_key (raw_pair el)))
    by reflexivity.
  rewrite <- map_map. apply NoDup_map_NoDup_ForallPairs;
    [intros p q _ _; apply pair_key_inj|].
  unfold lines_of. destruct busy; [apply NoDup_map_filter|]; apply Hnd;
    reflexivity.
Qed.

Lemma getAllSegments_unique_noop_witness :
  getAllSegments gw_distinct true true = getAllSegments gw_distinct false true.
Proof.
  apply (getAllSegments_unique_noop gw_distinct true).
  intros res [= <-]. cbn [data map raw_pair track trattaAB trattaBA].
  constructor; [|constructor; [intros []|constructor]].
  intros [H|[]]. discriminate H.
Defined.

(** X5. [getAllStations] returns the empty sequence exactly when its request
    failed (in transport or by a status other than 200) or the upstream list
    is empty: an empty result does not tell the two apart. *)
Theorem getAllStations_empty_iff (gw : gateway) :
  getAllStations gw = [] <->
  failed (elencoStazioni gw)
  \/ exists res, elencoStazioni gw = Resolved res /\ data res = [].
Proof.
  unfold getAllStations, getAllStations_try.
  destruct (elencoStazioni gw) as [err|res]; cbn [await bind failed].
  - split; [intros _; left; exact I | reflexivity].
  - destruct (Z.eqb_spec (status res) 200) as [Hs|Hs].
    + split.
      * intros Hmap. right. exists res. split; [reflexivity|].
        destruct (data res); [reflexivity | discriminate Hmap].
      * intros [Hf|(res' & [= <-] & ->)]; [contradiction | reflexivity].
    + split; [intros _; left; exact Hs | reflexivity].
Qed.

Lemma getAllStations_empty_iff_witness :
  getAllStations gw_down = [] /\ getAllStations gw_up <> [].
Proof.
  split.
  - apply (proj2 (getAllStations_empty_iff gw_down)). left. exact I.
  - intros H. apply (proj1 (getAllStations_empty_iff gw_up)) in H.
    destruct H as [H|(res & [= <-] & H)]; [apply H; reflexivity | discriminate H].
Defined.

(** X6. [getAllSegments] returns the empty sequence exactly when its request
    failed or no line is left to return (none in the answer, or none busy
    when [busy = true]). *)
Theorem getAllSegments_empty_iff (gw : gateway) (unique busy : bool) :
  getAllSegments gw unique busy = [] <->
  failed (elencoTratte gw)
  \/ exists res, elencoTratte gw = Resolved res /\ lines_of busy res = [].
Proof.
  split.
  - intros Hempty. destruct (elencoTratte gw) as [err|res] eqn:Hres;
      [left; exact I|].
    destruct (Z.eq_dec (status res) 200) as [Hs|Hs]; [|left; exact Hs].
    right. exists res. split; [reflexivity|].
    rewrite (getAllSegments_answered gw unique busy res Hres Hs) in Hempty.
    destruct (lines_of busy res) as [|el l] eqn:Hl; [reflexivity|].
    exfalso. destruct unique.
    + destruct (dedup_covers segment_key (el :: l) el (or_introl eq_refl))
        as (el' & Hin & _).
      apply (in_map to_mapSegment) in Hin.
      change (dedup segment_key (el :: l)) with (unique_lines (el :: l)) in Hin.
      rewrite Hempty in Hin. destruct Hin.
    + discriminate Hempty.
  - intros [Hf|(res & Hres & Hl)]; [apply getAllSegments_failed, Hf|].
    unfold getAllSegments, getAllSegments_try. rewrite Hres.
    cbn [await bind]. destruct (status res =? 200); [|reflexivity].
    fold (lines_of busy res). rewrite Hl. destruct unique; reflexivity.
Qed.

Lemma getAllSegments_empty_iff_witness :
  getAllSegments gw_catalog_down true true = [].
Proof.
  apply (proj2 (getAllSegments_empty_iff gw_catalog_down true true)).
  left. exact I.
Defined.

(** X7. A result of [getStationRegionId] other than -1 is the number the
    upstream answered with status 200. *)
Theorem getStationRegionId_not_sentinel (gw : gateway) (stationId : string) :
  getStationRegionId gw stationId <> -1 ->
  exists res,
    regioneStazione gw stationId = Resolved res /\ status res = 200
    /\ getStationRegionId gw stationId = data res.
Proof.
  unfold getStationRegionId, getStationRegionId_try.
  destruct (regioneStazione gw stationId) as [err|res]; cbn [await bind].
  - intros H. exfalso. apply H. reflexivity.
  - destruct (Z.eqb_spec (status res) 200) as [Hs|Hs].
    + intros _. exists res. split; [reflexivity|]. split; [exact Hs|reflexivity].
    + intros H. exfalso. apply H. reflexivity.
Qed.

Lemma getStationRegionId_not_sentinel_witness :
  exists res,
    regioneStazione gw_up "S07113" = Resolved res /\ status res = 200
    /\ getStationRegionId gw_up "S07113" = data res.
Proof.
  apply (getStationRegionId_not_sentinel gw_up "S07113"). discriminate.
Defined.

(* ================================================================== *)
(** ** getAllTrains: fan-out and result *)
(* ================================================================== *)

Lemma Promise_all_ok_iff {D : Type} (promises : list (axios_result D)) :
  (exists responses, Promise_all promises = Ok responses) <->
  forall p, In p promises -> exists res, p = Resolved res.
Proof.
  induction promises as [|p ps IH]; cbn [Promise_all].
  - split; [intros _ p [] | intros _; eexists; reflexivity].
  - destruct p as [err|res].
    + split.
      * intros (rs & H). discriminate H.
      * intros H. destruct (H (Rejected err) (or_introl eq_refl)) as (r & Hr).
        discriminate Hr.
    + destruct (Promise_all ps) as [rs|e].
      * split; [|intros _; eexists; reflexivity].
        intros _ p [<-|Hin]; [eexists; reflexivity|].
        apply (proj1 IH); [eexists; reflexivity | exact Hin].
      * split.
        -- intros (rs & H). discriminate H.
        -- intros H. exfalso.
           destruct (proj2 IH) as (rs & Hrs); [|discriminate Hrs].
           intros p Hin. apply H. right. exact Hin.
Qed.

Lemma Promise_all_responses {D : Type} (promises : list (axios_result D))
  (responses : list (response D)) :
  Promise_all promises = Ok responses ->
  forall res, In res responses -> In (Resolved res) promises.
Proof.
  revert responses. induction promises as [|p ps IH]; intros responses;
    cbn [Promise_all].
  - intros [= <-] res [].
  - destruct p as [err|r]; [discriminate|].
    destruct (Promise_all ps) as [rs|e]; [|discriminate].
    intros [= <-] res [<-|Hin]; [left; reflexivity|].
    right. apply (IH rs eq_refl), Hin.
Qed.

(** X8. When the catalogue of segments is served, the per-segment requests
    of [getAllTrains] are the requests for the distinct (trattaAB, trattaBA)
    pairs of the catalogue, one for each pair, in the order in which the
    pairs first occur; so it never issues more requests than the catalogue
    has lines. *)
Theorem getAllTrains_fan_out (gw : gateway) (res : response (list raw_segment)) :
  elencoTratte gw = Resolved res -> status res = 200 ->
  infoTratte gw (getAllSegments gw true false)
  = map (fun p => dettagliTratta gw (fst p) (snd p))
      (first_occurrences (map raw_pair (data res)))
  /\ (List.length (infoTratte gw (getAllSegments gw true false))
      <= List.length (data res))%nat.
Proof.
  intros Hres Hstatus. unfold infoTratte.
  rewrite (getAllSegments_answered gw true false res Hres Hstatus).
  cbn [lines_of]. split.
  - rewrite <- (dedup_pairs_order segment_key raw_pair (data res))
      by reflexivity.
    rewrite !map_map. apply map_ext. intros el. reflexivity.
  - rewrite !length_map. apply (dedup_length segment_key).
Qed.

Lemma getAllTrains_fan_out_witness :
  infoTratte gw_up (getAllSegments gw_up true false)
  = [dettagliTratta gw_up 10 11; dettagliTratta gw_up 20 21]
  /\ (List.length (infoTratte gw_up (getAllSegments gw_up true false))
      <= 3)%nat.
Proof.
  apply (getAllTrains_fan_out gw_up
           {| status := 200; statusText := "OK";
              data := [ track 10 11 "S01700" "S05043" true;
                        track 10 11 "S01700" "S05043" false;
                        track 20 21 "S05043" "S08409" true ] |});
    reflexivity.
Defined.

(** X9. [getAllTrains] returns a sequence of trains only if every
    per-segment request it issued resolved; and it does return one when
    every per-segment request it issued is answered with status 200. *)
Theorem getAllTrains_value_resolved (gw : gateway) :
  ((exists trains, getAllTrains gw = Value trains) ->
   forall s, In s (getAllSegments gw true false) ->
             exists res,
               dettagliTratta gw (segmentIdAB s) (segmentIdBA s) = Resolved res)
  /\ ((forall s, In s (getAllSegments gw true false) ->
         exists res,
           dettagliTratta gw (segmentIdAB s) (segmentIdBA s) = Resolved res
           /\ status res = 200) ->
      exists trains, getAllTrains gw = Value trains).
Proof.
  unfold getAllTrains, getAllTrains_try.
  pose proof (Promise_all_ok_iff
                (infoTratte gw (getAllSegments gw true false))) as Hiff.
  split.
  - intros (trains & Hv) s Hin.
    apply (proj1 Hiff).
    + destruct (Promise_all (infoTratte gw (getAllSegments gw true false)));
        [eexists; reflexivity | discriminate Hv].
    + unfold infoTratte.
      apply (in_map (fun el => dettagliTratta gw (segmentIdAB el)
                                 (segmentIdBA el))), Hin.
  - intros Hall. destruct (proj2 Hiff) as (rs & ->).
    + intros p Hin. unfold infoTratte in Hin. apply in_map_iff in Hin.
      destruct Hin as (s & <- & Hin).
      destruct (Hall s Hin) as (res & Hres & _). exists res. exact Hres.
    + eexists. reflexivity.
Qed.

Lemma getAllTrains_value_resolved_witness :
  exists trains, getAllTrains gw_quiet = Value trains.
Proof.
  apply (proj2 (getAllTrains_value_resolved gw_quiet)).
  intros s _. eexists. split; reflexivity.
Defined.

(** X10. Every train in a result of [getAllTrains] is the normalisation of
    a raw record that one of the per-segment answers carried and that passed
    the filter; so it has not arrived or has departed. *)
Theorem getAllTrains_origin (gw : gateway) (trains : list Train) (t : Train) :
  getAllTrains gw = Value trains -> In t trains ->
  (arrived t = false \/ departed t = true)
  /\ exists s res tr el,
       In s (getAllSegments gw true false)
       /\ dettagliTratta gw (segmentIdAB s) (segmentIdBA s) = Resolved res
       /\ In tr (data res) /\ In el (treni tr)
       /\ keep el = true /\ t = newData el.
Proof.
  unfold getAllTrains, getAllTrains_try.
  destruct (Promise_all (infoTratte gw (getAllSegments gw true false)))
    as [rs|e] eqn:Hall; cbn [bind]; [|discriminate].
  intros [= <-] Hin.
  change noDuplicates with (dedup train_key) in Hin.
  apply (dedup_incl train_key) in Hin.
  split; [apply (allTrains_of_kept rs), Hin|].
  unfold allTrains_of in Hin. apply in_map_iff in Hin.
  destruct Hin as (el & <- & Hin). apply filter_In in Hin.
  destruct Hin as [Hin Hkeep]. apply in_concat in Hin.
  destruct Hin as (chunk & Hchunk & Hel). apply in_map_iff in Hchunk.
  destruct Hchunk as (res & <- & Hres). apply in_concat in Hel.
  destruct Hel as (ts & Hts & Hel). apply in_map_iff in Hts.
  destruct Hts as (tr & <- & Htr).
  apply (Promise_all_responses _ _ Hall) in Hres.
  unfold infoTratte in Hres. apply in_map_iff in Hres.
  destruct Hres as (s & Hs & Hins).
  exists s, res, tr, el. repeat split; assumption.
Qed.

Lemma getAllTrains_origin_witness :
  arrived (newData (with_region 7 0 frecciarossa)) = false
  \/ departed (newData (with_region 7 0 frecciarossa)) = true.
Proof.
  apply (getAllTrains_origin gw_up
           [newData (with_region 3 9 frecciarossa);
            newData (with_region 7 0 frecciarossa)]).
  - reflexivity.
  - right. left. reflexivity.
Defined.

(** X11. [noDuplicates] lists each (trainNumber, regionId) pair once, in the
    order in which the pairs first occur in its input, and is never longer
    than its input. *)
Theorem noDuplicates_order (allTrains : list Train) :
  map train_pair (noDuplicates allTrains)
  = first_occurrences (map train_pair allTrains)
  /\ (List.length (noDuplicates allTrains) <= List.length allTrains)%nat.
Proof.
  change noDuplicates with (dedup train_key). split.
  - apply (dedup_pairs_order train_key train_pair). intros t. reflexivity.
  - apply dedup_length.
Qed.

Lemma find_sep_char_none (c : ascii) (s : string) :
  lacks c s -> find_sep (String c EmptyString) s = None.
Proof.
  induction s as [|x s IH]; [reflexivity|].
  intros [Hx Hs]. cbn [find_sep]. rewrite prefix_char.
  destruct (Ascii.eqb_spec x c) as [->|_]; [congruence|].
  rewrite (IH Hs). reflexivity.
Qed.

Lemma token_until_lacks (c : ascii) (s : string) :
  lacks c (token_until (fun x => Ascii.eqb x c) s).
Proof.
  induction s as [|x s IH]; [exact I|].
  cbn [token_until]. destruct (Ascii.eqb_spec x c) as [->|Hne]; [exact I|].
  split; assumption.
Qed.

(** X12. When the upstream duration contains no colon, the normalised
    [travelDuration] is NaN. *)
Theorem travelDuration_without_colon (el : raw_train) :
  lacks ":" (compDurata el) -> travelDuration (newData el) = NaN.
Proof.
  intros Hl.
  change (travelDuration (newData el)) with (minutes_of (compDurata el)).
  unfold minutes_of. rewrite !(nth_split_component ":") by discriminate.
  cbn [component]. rewrite (find_sep_char_none ":" _ Hl). cbn [Number].
  destruct (mul (Number_of_string (compDurata el)) (Num 60)); reflexivity.
Qed.

Lemma travelDuration_without_colon_witness :
  travelDuration (newData (with_duration "135" frecciarossa)) = NaN.
Proof.
  apply (travelDuration_without_colon (with_duration "135" frecciarossa)).
  cbn. repeat split; discriminate.
Defined.

(** X13. The normalised [trainCategory] is always defined; when the upstream
    category is empty, the derived one contains no space. *)
Theorem trainCategory_defined (el : raw_train) :
  exists c, trainCategory (newData el) = Some c
            /\ (categoria el = "" -> lacks " " c).
Proof.
  unfold newData; cbn [trainCategory].
  destruct (String.eqb_spec (categoria el) "") as [He|Hne]; cbn [negb].
  - rewrite split_space_first. eexists. split; [reflexivity|].
    intros _. apply (token_until_lacks " ").
  - eexists. split; [reflexivity|]. intros He. contradiction.
Qed.

(* ================================================================== *)
(** ** getTrainAutocomplete: lines and matches *)
(* ================================================================== *)

Lemma prefix_cons (c x : ascii) (sep s : string) :
  prefix (String c sep) (String x s) = Ascii.eqb x c && prefix sep s.
Proof.
  cbn [prefix]. destruct (ascii_dec c x) as [->|Hne].
  - rewrite Ascii.eqb_refl. reflexivity.
  - destruct (Ascii.eqb_spec x c) as [->|_]; [congruence | reflexivity].
Qed.

Lemma find_sep_char_here (c : ascii) (a b : string) :
  lacks c a ->
  find_sep (String c EmptyString) (a ++ String c b) = Some (a, b).
Proof.
  induction a as [|x a IH]; cbn [append find_sep lacks].
  - intros _. rewrite prefix_char, Ascii.eqb_refl. reflexivity.
  - intros [Hx Ha]. rewrite prefix_char.
    destruct (Ascii.eqb_spec x c) as [->|_]; [congruence|].
    rewrite (IH Ha). reflexivity.
Qed.

Lemma find_sep_spaced (a b : string) :
  lacks "-" a -> find_sep " - " (a ++ " - " ++ b) = Some (a, b).
Proof.
  induction a as [|x a IH]; cbn [lacks].
  - intros _. cbn [append find_sep]. rewrite !prefix_cons.
    replace (prefix "" b) with true by (destruct b; reflexivity).
    reflexivity.
  - intros [Hx Ha]. specialize (IH Ha).
    change (String x a ++ " - " ++ b)%string
      with (String x (a ++ " - " ++ b)).
    assert (Hp : prefix " - " (String x (a ++ " - " ++ b)) = false).
    { rewrite prefix_cons. destruct (Ascii.eqb x " "); [|reflexivity].
      cbn [andb]. destruct a as [|y a']; cbn [append].
      - rewrite prefix_cons. reflexivity.
      - rewrite prefix_cons. destruct Ha as [Hy _].
        destruct (Ascii.eqb_spec y "-") as [->|_]; [congruence | reflexivity]. }
    cbn [find_sep]. rewrite Hp, IH. reflexivity.
Qed.

(** The callback either builds the match of the line or, when the line has
    no second pipe-delimited field, raises the [TypeError] of [text[1].split]. *)
Lemma parse_line_cases (el : string) :
  (component "|" 1 el <> None /\ parse_line el = Ok (match_of_line el))
  \/ (component "|" 1 el = None /\ parse_line el = Throw no_field_1).
Proof.
  destruct (component "|" 1 el) as [text1|] eqn:H1.
  - left. split; [discriminate|]. apply parse_line_match. congruence.
  - right. split; [reflexivity|]. unfold parse_line.
    rewrite (nth_split_component "|") by discriminate. rewrite H1.
    reflexivity.
Qed.

Lemma mapi_parse_inv (l : list string) :
  forall i out,
    mapi_exc (fun el _ => parse_line el) i l = Ok out ->
    out = map match_of_line l
    /\ forall el, In el l -> component "|" 1 el <> None.
Proof.
  induction l as [|a l IH]; intros i out; cbn [mapi_exc].
  - intros [= <-]. split; [reflexivity | intros el []].
  - destruct (parse_line_cases a) as [[Ha ->]|[_ ->]]; cbn [bind];
      [|discriminate].
    destruct (mapi_exc (fun el _ => parse_line el) (S i) l) as [bs|e] eqn:Hl;
      cbn [bind]; [|discriminate].
    intros [= <-]. destruct (IH (S i) bs Hl) as [-> Hall].
    split; [reflexivity|]. intros el [<-|Hin]; [exact Ha | apply Hall, Hin].
Qed.

Lemma mapi_parse_throw (l : list string) :
  forall i el,
    In el l -> component "|" 1 el = None ->
    mapi_exc (fun el _ => parse_line el) i l = Throw no_field_1.
Proof.
  induction l as [|a l IH]; intros i el Hin Hnone; [destruct Hin|].
  cbn [mapi_exc].
  destruct (parse_line_cases a) as [[Ha ->]|[_ ->]]; cbn [bind];
    [|reflexivity].
  destruct Hin as [<-|Hin]; [contradiction|].
  rewrite (IH (S i) el Hin Hnone). reflexivity.
Qed.

Lemma getTrainAutocomplete_inv (gw : gateway) (trainNumber : string)
  (matches : list TrainAutocompleteMatch) :
  getTrainAutocomplete gw trainNumber = Value matches ->
  exists res,
    cercaNumeroTrenoTrenoAutocomplete gw trainNumber = Resolved res
    /\ status res = 200
    /\ matches = map match_of_line (nonempty_lines (data res))
    /\ forall el, In el (nonempty_lines (data res)) ->
                  component "|" 1 el <> None.
Proof.
  unfold getTrainAutocomplete, getTrainAutocomplete_try.
  destruct (cercaNumeroTrenoTrenoAutocomplete gw trainNumber) as [err|res];
    cbn [await bind]; [discriminate|].
  destruct (Z.eqb_spec (status res) 200) as [Hs|Hs]; [|discriminate].
  fold (nonempty_lines (data res)).
  destruct (mapi_exc (fun el _ => parse_line el) 0 (nonempty_lines (data res)))
    as [out|e] eqn:Hout; cbn [bind]; [|discriminate].
  destruct (mapi_parse_inv _ _ _ Hout) as [-> Hall].
  intros Hv. exists res. split; [reflexivity|]. split; [exact Hs|].
  split; [|exact Hall].
  destruct (map match_of_line (nonempty_lines (data res)));
    injection Hv as <-; reflexivity.
Qed.

(** X14. One non-empty line without a pipe spoils the whole answer:
    [getTrainAutocomplete] returns the [TypeError] raised on that line, not
    the matches of the other lines. *)
Theorem getTrainAutocomplete_line_without_field (gw : gateway)
  (trainNumber : string) (res : response string) (el : string) :
  cercaNumeroTrenoTrenoAutocomplete gw trainNumber = Resolved res ->
  status res = 200 ->
  In el (nonempty_lines (data res)) -> lacks "|" el ->
  getTrainAutocomplete gw trainNumber = Err no_field_1.
Proof.
  intros Hres Hstatus Hin Hl.
  unfold getTrainAutocomplete, getTrainAutocomplete_try.
  rewrite Hres. cbn [await bind]. rewrite Hstatus. cbn [Z.eqb Pos.eqb].
  fold (nonempty_lines (data res)).
  rewrite (mapi_parse_throw _ 0%nat el Hin); [reflexivity|].
  cbn [component]. rewrite (find_sep_char_none "|" el Hl). reflexivity.
Qed.

Lemma getTrainAutocomplete_line_without_field_witness :
  getTrainAutocomplete gw_broken_line "3914" = Err no_field_1.
Proof.
  apply (getTrainAutocomplete_line_without_field gw_broken_line "3914"
           {| status := 200; statusText := "OK";
              data := (autocomplete_line ++ newline ++ "3914 ANCONA"
                       ++ newline)%string |}
           "3914 ANCONA").
  - reflexivity.
  - reflexivity.
  - right. left. reflexivity.
  - cbn. repeat split; discriminate.
Defined.

(** X15. On a line of the regular form
    "<n> - <station> - <date>|<number>-<station id>-<timestamp>", where the
    label has no pipe, [n] and the station name no hyphen, the code no pipe,
    and the number and the station id no hyphen, the callback of
    [getTrainAutocomplete] gives back the number, the station name and the
    station id. *)
Theorem parse_line_regular (n station date number sid timestamp : string) :
  lacks "-" n -> lacks "-" station ->
  lacks "-" number -> lacks "-" sid ->
  lacks "|" (regular_label n station date) ->
  lacks "|" (regular_code number sid timestamp) ->
  parse_line (regular_line (regular_label n station date)
                (regular_code number sid timestamp))
  = Ok {| m_trainNumber := Some number;
          m_stationA := Some station;
          m_stationIdA := Some sid |}.
Proof.
  intros Hn Hst Hnum Hsid Hlabel Hcode.
  destruct (parse_line_cases (regular_line (regular_label n station date)
                                (regular_code number sid timestamp)))
    as [[_ ->]|[Hnone _]].
  - f_equal. unfold match_of_line, regular_line. cbn [component].
    change (regular_label n station date ++ "|"
            ++ regular_code number sid timestamp)%string
      with (regular_label n station date
            ++ String "|" (regular_code number sid timestamp))%string.
    rewrite (find_sep_char_here "|" _ _ Hlabel).
    rewrite (find_sep_char_none "|" _ Hcode). cbn [and_then component].
    unfold regular_code, regular_label.
    change (number ++ "-" ++ sid ++ "-" ++ timestamp)%string
      with (number ++ String "-" (sid ++ String "-" timestamp))%string.
    rewrite (find_sep_char_here "-" _ _ Hnum).
    rewrite (find_sep_char_here "-" _ _ Hsid).
    rewrite (find_sep_spaced n _ Hn), (find_sep_spaced station _ Hst).
    reflexivity.
  - exfalso. unfold regular_line in Hnone. cbn [component] in Hnone.
    change (regular_label n station date ++ "|"
            ++ regular_code number sid timestamp)%string
      with (regular_label n station date
            ++ String "|" (regular_code number sid timestamp))%string in Hnone.
    rewrite (find_sep_char_here "|" _ _ Hlabel) in Hnone.
    rewrite (find_sep_char_none "|" _ Hcode) in Hnone. discriminate Hnone.
Qed.

Lemma parse_line_regular_witness :
  parse_line autocomplete_line
  = Ok {| m_trainNumber := Some "3914";
          m_stationA := Some "ANCONA";
          m_stationIdA := Some "S07113" |}.
Proof.
  apply (parse_line_regular "3914" "ANCONA" "03/11/25"
           "3914" "S07113" "1762124400000");
    cbn; repeat split; discriminate.
Defined.

Lemma split_only_newlines (s : string) :
  only_newlines s -> forall piece, In piece (split newline s) -> piece = "".
Proof.
  induction s as [|c s IH]; rewrite (split_unfold newline) by discriminate.
  - intros _ piece [<-|[]]. reflexivity.
  - intros [-> Hs]. unfold newline at 1. cbn [find_sep].
    rewrite prefix_char, Ascii.eqb_refl. cbn [String.length drop].
    intros piece [<-|Hin]; [reflexivity | apply (IH Hs), Hin].
Qed.

(** X16. When the text of an answer served with status 200 holds nothing
    but newlines (the empty text included), [getTrainAutocomplete] returns
    the empty sequence of matches. *)
Theorem getTrainAutocomplete_blank (gw : gateway) (trainNumber : string)
  (res : response string) :
  cercaNumeroTrenoTrenoAutocomplete gw trainNumber = Resolved res ->
  status res = 200 -> only_newlines (data res) ->
  getTrainAutocomplete gw trainNumber = Value [].
Proof.
  intros Hres Hstatus Hblank.
  unfold getTrainAutocomplete, getTrainAutocomplete_try.
  rewrite Hres. cbn [await bind]. rewrite Hstatus. cbn [Z.eqb Pos.eqb].
  replace (filter (fun el => negb (String.eqb el "")) (split newline (data res)))
    with (@nil string); [reflexivity|].
  symmetry. pose proof (split_only_newlines _ Hblank) as Hall.
  induction (split newline (data res)) as [|piece l IH]; [reflexivity|].
  cbn [filter]. rewrite (Hall piece (or_introl eq_refl)). cbn [String.eqb negb].
  apply IH. intros p Hp. apply Hall. right. exact Hp.
Qed.

Lemma getTrainAutocomplete_blank_witness :
  getTrainAutocomplete gw_blank "3914" = Value [].
Proof.
  apply (getTrainAutocomplete_blank gw_blank "3914"
           {| status := 200; statusText := "OK";
              data := (newline ++ newline)%string |}).
  - reflexivity.
  - reflexivity.
  - cbn. repeat split.
Defined.

Lemma component_char_lacks (c : ascii) (k : nat) :
  forall s t, component (String c EmptyString) k s = Some t -> lacks c t.
Proof.
  induction k as [|k IH]; intros s t.
  - rewrite component_char_first. intros [= <-]. apply token_until_lacks.
  - cbn [component].
    destruct (find_sep (String c EmptyString) s) as [[a b]|]; [|discriminate].
    apply IH.
Qed.

(** X17. In every sequence of matches returned by [getTrainAutocomplete],
    each match has a train number, the train number contains no hyphen, and
    the station id, when there is one, contains no hyphen either. *)
Theorem getTrainAutocomplete_matches (gw : gateway) (trainNumber : string)
  (matches : list TrainAutocompleteMatch) (m : TrainAutocompleteMatch) :
  getTrainAutocomplete gw trainNumber = Value matches -> In m matches ->
  (exists number, m_trainNumber m = Some number /\ lacks "-" number)
  /\ (forall sid, m_stationIdA m = Some sid -> lacks "-" sid).
Proof.
  intros Hv Hin. apply getTrainAutocomplete_inv in Hv.
  destruct Hv as (res & _ & _ & -> & Hall).
  apply in_map_iff in Hin. destruct Hin as (el & <- & Hel).
  specialize (Hall el Hel). unfold match_of_line.
  cbn [m_trainNumber m_stationIdA].
  destruct (component "|" 1 el) as [text1|]; [|congruence].
  cbn [and_then]. split.
  - destruct (component_first_some "-" text1) as (number & Hnum).
    exists number. split; [exact Hnum|].
    apply (component_char_lacks "-" 0 text1), Hnum.
  - intros sid Hsid. apply (component_char_lacks "-" 1 text1), Hsid.
Qed.

Lemma getTrainAutocomplete_matches_witness :
  (exists number, Some "3914" = Some number /\ lacks "-" number)
  /\ (forall sid, Some "S07113" = Some sid -> lacks "-" sid).
Proof.
  apply (getTrainAutocomplete_matches gw_up "3914"
           [ {| m_trainNumber := Some "3914";
                m_stationA := Some "ANCONA";
                m_stationIdA := Some "S07113" |} ]
           {| m_trainNumber := Some "3914";
              m_stationA := Some "ANCONA";
              m_stationIdA := Some "S07113" |}).
  - reflexivity.
  - left. reflexivity.
Defined.

(* ================================================================== *)
(** ** Resolving the station id *)
(* ================================================================== *)

(** X18. Leaving [stationIdA] out is the same as passing the station id of
    the [segmentN]-th match of [getTrainAutocomplete], for
    [getTrainStopsInfo] and for [getTrainInfo]. *)
Theorem stationId_of_match (gw : gateway) (trainNumber : string)
  (segmentN : Z) (matches : list TrainAutocompleteMatch)
  (m : TrainAutocompleteMatch) (sid : string) :
  getTrainAutocomplete gw trainNumber = Value matches ->
  at_index matches segmentN = Some m ->
  m_stationIdA m = Some sid ->
  getTrainStopsInfo gw trainNumber None segmentN
  = getTrainStopsInfo gw trainNumber (Some sid) segmentN
  /\ getTrainInfo gw trainNumber None segmentN
     = getTrainInfo gw trainNumber (Some sid) segmentN.
Proof.
  intros Hv Hat Hsid.
  unfold getTrainStopsInfo, getTrainStopsInfo_try, getTrainInfo,
    getTrainInfo_try.
  cbn [resolve_stationId]. rewrite Hv. cbn [entry_at]. rewrite Hat.
  cbn [option_map read_of bind]. rewrite Hsid. split; reflexivity.
Qed.

Lemma stationId_of_match_witness :
  getTrainStopsInfo gw_up "3914" None 0
  = getTrainStopsInfo gw_up "3914" (Some "S07113") 0
  /\ getTrainInfo gw_up "3914" None 0
     = getTrainInfo gw_up "3914" (Some "S07113") 0.
Proof.
  apply (stationId_of_match gw_up "3914" 0
           [ {| m_trainNumber := Some "3914";
                m_stationA := Some "ANCONA";
                m_stationIdA := Some "S07113" |} ]
           {| m_trainNumber := Some "3914";
              m_stationA := Some "ANCONA";
              m_stationIdA := Some "S07113" |} "S07113");
    reflexivity.
Defined.

(** X19. Called without [stationIdA], [getTrainInfo] returns a [TypeError]
    in place of the train information whenever the value handed back by
    [getTrainAutocomplete] has no entry at index [segmentN]; no request for
    the itinerary is made with it. *)
Theorem getTrainInfo_no_entry (gw : gateway) (trainNumber : string)
  (segmentN : Z) :
  entry_at (getTrainAutocomplete gw trainNumber) segmentN = None ->
  exists message,
    getTrainInfo gw trainNumber None segmentN = Err (TypeError message).
Proof.
  intros Hnone. unfold getTrainInfo, getTrainInfo_try.
  cbn [resolve_stationId]. rewrite Hnone. cbn [read_of bind].
  eexists. reflexivity.
Qed.

Lemma getTrainInfo_no_entry_witness :
  exists message,
    getTrainInfo gw_no_match "3914" None 0 = Err (TypeError message).
Proof.
  apply (getTrainInfo_no_entry gw_no_match "3914" 0). reflexivity.
Defined.

(* ================================================================== *)
(** ** getTrainInfo: what a result holds *)
(* ================================================================== *)

Lemma progress_stop_inv (all : list raw_fermata) (st : raw_fermata) (k : nat)
  (o : trainStopInfo) :
  progress_stop all st k = Ok o ->
  isCurrentStop o = current_at all st k
  /\ (delayAtArrival o <> None -> truthy (actualArrival o) = true)
  /\ (delayAtDeparture o <> None -> truthy (actualDeparture o) = true)
  /\ (isFirstStop o = true -> isLastStop o = false).
Proof.
  unfold progress_stop, isCurrentStop_of, current_at.
  destruct (actualFermataType st =? 1).
  - destruct (nth_error all (k + 1)) as [next|]; cbn [read_of bind];
      [|discriminate].
    intros [= <-]. cbn. rewrite orb_false_r. split; [reflexivity|].
    split; [destruct (truthy (arrivoReale st)); congruence|].
    split; [destruct (truthy (partenzaReale st)); congruence|].
    intros HP. apply String.eqb_eq in HP. rewrite HP. reflexivity.
  - cbn [bind]. intros [= <-]. cbn. split; [reflexivity|].
    split; [destruct (truthy (arrivoReale st)); congruence|].
    split; [destruct (truthy (partenzaReale st)); congruence|].
    intros HP. apply String.eqb_eq in HP. rewrite HP. reflexivity.
Qed.

Lemma mapi_progress_inv (all l : list raw_fermata) :
  forall i out,
    mapi_exc (progress_stop all) i l = Ok out ->
    List.length out = List.length l
    /\ forall j o, nth_error out j = Some o ->
         exists st, nth_error l j = Some st
                    /\ progress_stop all st (i + j) = Ok o.
Proof.
  induction l as [|a l IH]; intros i out; cbn [mapi_exc].
  - intros [= <-]. split; [reflexivity|]. intros [|j] o H; discriminate H.
  - destruct (progress_stop all a i) as [o0|e] eqn:Ha; cbn [bind];
      [|discriminate].
    destruct (mapi_exc (progress_stop all) (S i) l) as [bs|e] eqn:Hl;
      cbn [bind]; [|discriminate].
    intros [= <-]. destruct (IH (S i) bs Hl) as [Hlen Hnth].
    split; [simpl; rewrite Hlen; reflexivity|].
    intros [|j] o Hj; simpl in Hj.
    + injection Hj as <-. exists a. split; [reflexivity|].
      rewrite Nat.add_0_r. exact Ha.
    + destruct (Hnth j o Hj) as (st & Hst & Hp).
      exists st. split; [exact Hst|].
      replace (i + S j)%nat with (S i + j)%nat by lia. exact Hp.
Qed.

Lemma getTrainInfo_inv (gw : gateway) (trainNumber : string)
  (stationIdA : option string) (segmentN : Z) (info : trainInfo) :
  getTrainInfo gw trainNumber stationIdA segmentN = Value info ->
  exists sid res,
    andamentoTreno gw sid trainNumber = Resolved res /\ status res = 200
    /\ stops_of (fermate (data res)) = Ok (stops info)
    /\ lastDetection info
       = (if truthy (oraUltimoRilevamento (data res))
          then oraUltimoRilevamento (data res) else None)
    /\ lastDetectionStationName info
       = (if negb (String.eqb (stazioneUltimoRilevamento (data res)) "--")
          then Some (stazioneUltimoRilevamento (data res)) else None).
Proof.
  unfold getTrainInfo, getTrainInfo_try.
  destruct (resolve_stationId gw trainNumber stationIdA segmentN)
    as [stationId|e]; cbn [bind]; [|discriminate].
  destruct (andamentoTreno gw (string_of_stationId stationId) trainNumber)
    as [err|res] eqn:Hres; cbn [await bind]; [discriminate|].
  destruct (Z.eqb_spec (status res) 200) as [Hs|Hs]; [|discriminate].
  destruct (stops_of (fermate (data res))) as [out|e] eqn:Hout; cbn [bind];
    [|discriminate].
  intros [= <-]. exists (string_of_stationId stationId), res.
  split; [exact Hres|]. split; [exact Hs|]. split; [exact Hout|].
  split; reflexivity.
Qed.

Lemma getTrainInfo_unmarked_value (gw : gateway) (trainNumber sid : string)
  (segmentN : Z) (res : response raw_andamento) :
  andamentoTreno gw sid trainNumber = Resolved res -> status res = 200 ->
  last_stop_unmarked (fermate (data res)) ->
  exists info, getTrainInfo gw trainNumber (Some sid) segmentN = Value info.
Proof.
  intros Hres Hstatus Hlast.
  destruct (mapi_progress_ok (fermate (data res)) (fermate (data res)) 0
              (unmarked_next_exists _ Hlast)) as (out & Hout & _).
  unfold getTrainInfo, getTrainInfo_try. cbn [resolve_stationId bind].
  cbn [string_of_stationId]. rewrite Hres. cbn [await bind].
  rewrite Hstatus. cbn [Z.eqb Pos.eqb]. unfold stops_of. rewrite Hout.
  cbn [bind]. eexists. reflexivity.
Qed.

(** X20. In the train information [getTrainInfo] returns, the last stop is
    never the current one, and a current stop is never followed by another
    current stop. *)
Theorem getTrainInfo_current_stops (gw : gateway) (trainNumber : string)
  (stationIdA : option string) (segmentN : Z) (info : trainInfo) :
  getTrainInfo gw trainNumber stationIdA segmentN = Value info ->
  (forall o, nth_error (stops info) (List.length (stops info) - 1) = Some o ->
             isCurrentStop o = false)
  /\ (forall i o o',
        nth_error (stops info) i = Some o ->
        nth_error (stops info) (i + 1) = Some o' ->
        isCurrentStop o = true -> isCurrentStop o' = false).
Proof.
  intros Hv. apply getTrainInfo_inv in Hv.
  destruct Hv as (sid & res & _ & _ & Hstops & _).
  unfold stops_of in Hstops.
  destruct (mapi_progress_inv _ _ _ _ Hstops) as [Hlen Hnth].
  split.
  - intros o Ho. destruct (Hnth _ _ Ho) as (st & _ & Hp).
    apply progress_stop_inv in Hp. destruct Hp as [-> _].
    unfold current_at.
    replace (nth_error (fermate (data res))
               (0 + (List.length (stops info) - 1) + 1))
      with (@None raw_fermata);
      [apply andb_false_r|].
    symmetry. apply nth_error_None.
    assert ((List.length (stops info) - 1 < List.length (stops info))%nat)
      by (apply nth_error_Some; congruence).
    lia.
  - intros i o o' Ho Ho' Hcur.
    destruct (Hnth _ _ Ho) as (st & _ & Hp).
    destruct (Hnth _ _ Ho') as (st' & Hst' & Hp').
    apply progress_stop_inv in Hp. destruct Hp as [Hc _].
    apply progress_stop_inv in Hp'. destruct Hp' as [-> _].
    rewrite Hc in Hcur. unfold current_at in Hcur |- *.
    cbn [Nat.add] in Hcur. rewrite Hst' in Hcur.
    apply andb_true_iff in Hcur. destruct Hcur as [_ H0].
    apply Z.eqb_eq in H0. rewrite H0. reflexivity.
Qed.

Lemma getTrainInfo_current_stops_witness :
  exists info,
    getTrainInfo gw_up "3914" None 0 = Value info
    /\ (forall o, nth_error (stops info) (List.length (stops info) - 1) = Some o ->
                  isCurrentStop o = false).
Proof.
  eexists. split; [reflexivity|].
  apply (getTrainInfo_current_stops gw_up "3914" None 0). reflexivity.
Defined.

(** X21. With the station id given and the itinerary served with status
    200, [getTrainInfo] returns an error in place of the train information
    exactly when the last stop of the itinerary carries the marker 1. *)
Theorem getTrainInfo_error_iff (gw : gateway) (trainNumber sid : string)
  (segmentN : Z) (res : response raw_andamento) :
  andamentoTreno gw sid trainNumber = Resolved res -> status res = 200 ->
  (exists e, getTrainInfo gw trainNumber (Some sid) segmentN = Err e) <->
  exists st,
    nth_error (fermate (data res)) (List.length (fermate (data res)) - 1)
    = Some st
    /\ actualFermataType st = 1.
Proof.
  intros Hres Hstatus. split.
  - intros (e & He).
    destruct (nth_error (fermate (data res))
                (List.length (fermate (data res)) - 1)) as [st|] eqn:Hst.
    + destruct (Z.eq_dec (actualFermataType st) 1) as [H1|H1];
        [exists st; split; [reflexivity | exact H1]|].
      exfalso.
      destruct (getTrainInfo_unmarked_value gw trainNumber sid segmentN res
                  Hres Hstatus) as (info & Hinfo).
      * intros st' Hst'. rewrite Hst in Hst'. injection Hst' as <-. exact H1.
      * rewrite Hinfo in He. discriminate He.
    + exfalso.
      destruct (getTrainInfo_unmarked_value gw trainNumber sid segmentN res
                  Hres Hstatus) as (info & Hinfo).
      * intros st' Hst'. rewrite Hst in Hst'. discriminate Hst'.
      * rewrite Hinfo in He. discriminate He.
  - intros (st & Hst & H1).
    apply (getTrainInfo_last_stop_marked gw trainNumber sid segmentN res st);
      assumption.
Qed.

Lemma getTrainInfo_error_iff_witness :
  exists e, getTrainInfo gw_last_marked "3914" (Some "S07113") 0 = Err e.
Proof.
  apply (proj2 (getTrainInfo_error_iff gw_last_marked "3914" "S07113" 0
                  {| status := 200; statusText := "OK";
                     data := progress stops_last_marked |}
                  eq_refl eq_refl)).
  exists (stop_marked "BOLOGNA" "A" 1). split; reflexivity.
Defined.

(** X22. In the train information [getTrainInfo] returns, [lastDetection]
    is never 0 and [lastDetectionStationName] is never "--"; a stop has a
    delay at arrival (at departure) only with an actual arrival (departure)
    time that is present and not 0; and no stop is both first and last. *)
Theorem getTrainInfo_fields (gw : gateway) (trainNumber : string)
  (stationIdA : option string) (segmentN : Z) (info : trainInfo) :
  getTrainInfo gw trainNumber stationIdA segmentN = Value info ->
  lastDetection info <> Some 0
  /\ lastDetectionStationName info <> Some "--"
  /\ forall o, In o (stops info) ->
       (delayAtArrival o <> None -> truthy (actualArrival o) = true)
       /\ (delayAtDeparture o <> None -> truthy (actualDeparture o) = true)
       /\ (isFirstStop o = true -> isLastStop o = false).
Proof.
  intros Hv. apply getTrainInfo_inv in Hv.
  destruct Hv as (sid & res & _ & _ & Hstops & -> & ->).
  split; [|split].
  - destruct (oraUltimoRilevamento (data res)) as [z|]; cbn [truthy];
      [|discriminate].
    destruct (Z.eqb_spec z 0) as [->|Hz]; cbn [negb]; [discriminate|].
    intros [= H]. contradiction.
  - destruct (String.eqb_spec (stazioneUltimoRilevamento (data res)) "--")
      as [He|Hne]; cbn [negb]; [discriminate|].
    intros [= H]. contradiction.
  - intros o Hin. apply In_nth_error in Hin. destruct Hin as (j & Hj).
    unfold stops_of in Hstops.
    destruct (mapi_progress_inv _ _ _ _ Hstops) as [_ Hnth].
    destruct (Hnth _ _ Hj) as (st & _ & Hp).
    apply progress_stop_inv in Hp. apply Hp.
Qed.

Lemma getTrainInfo_fields_witness :
  exists info,
    getTrainInfo gw_up "3914" None 0 = Value info
    /\ lastDetection info <> Some 0
    /\ lastDetectionStationName info <> Some "--".
Proof.
  eexists. split; [reflexivity|].
  destruct (getTrainInfo_fields gw_up "3914" None 0 _ eq_refl) as (H1 & H2 & _).
  split; assumption.
Defined.

Lemma getTrainStopsInfo_code_not_200_witness :
  getTrainStopsInfo gw_autocomplete_204 "3914" None 0
  = getTrainStopsInfo gw_autocomplete_204 "3914" (Some "undefined") 0.
Proof.
  apply (getTrainStopsInfo_code_not_200 gw_autocomplete_204 "3914" 0
           {| status := 204; statusText := "No Content"; data := "" |}).
  - reflexivity.
  - discriminate.
  - lia.
Defined.
